(** * tvmaze: a cache-backed HTTP client for the tvmaze API

    A shallow embedding of [tvmaze.go].  Pure code (the candidate matching
    of [FindShow]) is a Rocq function; code that touches the cache, the
    clock, the file system or the network runs in a small state monad over
    an explicit [World].  The Go standard library and the cache package are
    not part of the repository: the standard library enters through the
    interfaces [StringsPkg], [UrlPkg] and [Runtime], the cache store is
    modelled from its contract. *)

From Stdlib Require Import ZArith String Ascii List Bool Strings.Byte DecimalString.
From stdpp Require Import base option gmap strings list.

Open Scope Z_scope.

(** ** Go strings

    A Go string is a byte sequence, read as UTF-8 where text matters. *)

Definition lowerByte (c : ascii) : ascii :=
  let n := N_of_ascii c in
  if ((65 <=? n) && (n <=? 90))%N then ascii_of_N (n + 32) else c.

(** The letters [A]-[Z] lowered byte by byte. *)
Fixpoint asciiLower (s : string) : string :=
  match s with
  | EmptyString => EmptyString
  | String c rest => String (lowerByte c) (asciiLower rest)
  end.

(** Every byte is below [utf8.RuneSelf]. *)
Fixpoint isASCII (s : string) : bool :=
  match s with
  | EmptyString => true
  | String c rest => (N_of_ascii c <? 128)%N && isASCII rest
  end.

(** Package [strings].  [strings.ToLower] lowers every Unicode letter, by
    the case tables of package [unicode]; those are no part of the
    repository, so the function is a parameter.  What is fixed is its
    behaviour on ASCII text, where it lowers [A]-[Z] byte by byte. *)
Class StringsPkg := {
  strings_ToLower : string → string;
  strings_ToLower_ascii : ∀ s, isASCII s = true → strings_ToLower s = asciiLower s }.

(** [strings.HasPrefix(s, prefix)]: does [s] begin with [prefix]. *)
Definition strings_HasPrefix (s prefix : string) : bool := String.prefix prefix s.

(** [fmt.Sprintf("%d", n)] for an [int64]. *)
Definition fmt_d (n : Z) : string := NilZero.string_of_int (Z.to_int n).

(** ** Data records (lines 176-267) *)

(** A [float64] is kept as its IEEE-754 bit pattern; no code inspects it. *)
Definition float64 := Z.

Record Country := {
  Country_Name : string;
  Country_Code : string;
  Country_TimeZone : string }.

Record Network := {
  Network_ID : Z;
  Network_Name : string;
  Network_Country : Country }.

Record Rating := { Rating_Average : float64 }.

Record Schedule := {
  Schedule_Time : string;
  Schedule_Days : list string }.

Record External := {
  External_TVRage : Z;
  External_TheTVDB : Z }.

Record Image := {
  Image_Medium : string;
  Image_Original : string }.

Record Link := { Link_Href : string }.

Record Links := {
  Links_Self : Link;
  Links_PreviousEpisode : Link }.

Record Show := {
  Show_ID : Z;
  Show_URL : string;
  Show_Name : string;
  Show_Type : string;
  Show_Language : string;
  Show_Genres : list string;
  Show_Status : string;
  Show_Runtime : Z;
  Show_Premiered : string;
  Show_Schedule : Schedule;
  Show_Rating : Rating;
  Show_Weight : Z;
  Show_Network : Network;
  Show_Externals : External;
  Show_Image : Image;
  Show_Summary : string;
  Show_Updated : Z;
  Show_Links : Links }.

Record Candidate := {
  Candidate_Score : float64;
  Candidate_Show : Show }.

Record Episode := {
  Episode_ID : Z;
  Episode_URL : string;
  Episode_Name : string;
  Episode_Season : Z;
  Episode_Number : Z;
  Episode_AirDate : string;
  Episode_AirTime : string;
  Episode_AirStamp : string;
  Episode_Runtime : Z;
  Episode_Summary : string;
  Episode_Links : Links }.

(** The zero values Go gives to an uninitialised struct. *)
Definition zeroCountry : Country := Build_Country "" "" "".
Definition zeroNetwork : Network := Build_Network 0 "" zeroCountry.
Definition zeroLinks : Links := Build_Links (Build_Link "") (Build_Link "").
Definition zeroShow : Show :=
  Build_Show 0 "" "" "" "" [] "" 0 "" (Build_Schedule "" []) (Build_Rating 0) 0
             zeroNetwork (Build_External 0 0) (Build_Image "" "") "" 0 zeroLinks.

(** ** The matching loops of [FindShow] (lines 71-86) *)

Section Matching.
Context `{StringsPkg}.
Variable Region : string.
Variable showname : string.

(** One run of [for _, cand := range candidates] at a fixed [retry];
    [Some show] is the early [return show, nil]. *)
Fixpoint FindShow_range (retry : Z) (candidates : list Candidate) : option Show :=
  match candidates with
  | [] => None
  | cand :: rest =>
      let show := Candidate_Show cand in
      if negb (String.eqb Region "") && (retry <? 1) then
        if String.eqb Region (Country_Code (Network_Country (Show_Network show)))
           && strings_HasPrefix (Show_Name show) showname
        then Some show
        else FindShow_range retry rest
      else
        if String.eqb (strings_ToLower (Show_Name show)) (strings_ToLower showname)
        then Some show
        else if (retry >? 0) && strings_HasPrefix (Show_Name show) showname
        then Some show
        else FindShow_range retry rest
  end.

(** [for retry := 0; retry <= 1; retry++]: [n] bounds the number of times
    the loop condition is tested. *)
Fixpoint FindShow_for (n : nat) (retry : Z) (candidates : list Candidate) : option Show :=
  match n with
  | O => None
  | S n' =>
      if retry <=? 1 then
        match FindShow_range retry candidates with
        | Some show => Some show
        | None => FindShow_for n' (retry + 1) candidates
        end
      else None
  end.

(** The condition is tested at [retry = 0, 1, 2] and fails at [2]. *)
Definition FindShow_loops (candidates : list Candidate) : option Show :=
  FindShow_for 3 0 candidates.
End Matching.

(** ** Errors and outcomes *)

(** A Go [error] value: built here with [errors.New], or handed over by a
    library ([pkg] names the package it came from). *)
Inductive error :=
| errors_New (msg : string)
| LibError (pkg msg : string).

(** [err.Error()]. *)
Definition error_Error (err : error) : string :=
  match err with
  | errors_New msg => msg
  | LibError pkg msg => pkg +:+ ": " +:+ msg
  end.

Definition newline : string := String (ascii_of_N 10) EmptyString.

(** How a call ends: it returns, it panics, or the process exits
    ([log.Fatal]). *)
Inductive Outcome (A : Type) :=
| Done (a : A)
| Panic (msg : string)
| Exit (code : Z).
Arguments Done {A} a.
Arguments Panic {A} msg.
Arguments Exit {A} code.

(** ** The cache store *)

(** The dynamic type of an [interface{}] value held by the cache. *)
Inductive Object :=
| ObjNil
| ObjBytes (data : list byte)
| ObjString (s : string)
| ObjInt (n : Z).

Record CacheEntry := {
  entry_value : Object;
  entry_storedAt : Z;
  entry_ttl : Z }.

Record CacheStore := {
  defaultTTL : Z;
  sweepInterval : Z;
  entries : gmap string CacheEntry }.

(** Durations are nanoseconds, as [time.Duration]. *)
Definition time_Second : Z := 1000000000.
Definition time_Minute : Z := 60 * time_Second.

(** Modelled from the spec: the cache package ([robfig/go-cache]) is a
    dependency whose source is absent; an entry is absent once
    [now > storedAt + ttl]. *)
Definition entry_live (now : Z) (e : CacheEntry) : bool :=
  now <=? entry_storedAt e + entry_ttl e.

(** Modelled from the spec: [cache.New(defaultExpiration, cleanupInterval)]
    of the absent cache package; the store starts empty. *)
Definition cache_New (defaultExpiration cleanupInterval : Z) : CacheStore :=
  {| defaultTTL := defaultExpiration; sweepInterval := cleanupInterval; entries := ∅ |}.

(** Modelled from the spec: [get(key)] of the absent cache package; found is
    false if the key was never set or its entry has expired, and nothing is
    purged. *)
Definition cache_get (now : Z) (k : string) (s : CacheStore) : Object * bool :=
  match entries s !! k with
  | Some e => if entry_live now e then (entry_value e, true) else (ObjNil, false)
  | None => (ObjNil, false)
  end.

(** Modelled from the spec: [set(key, value, ttl)] of the absent cache
    package; inserts or overwrites, starting a fresh expiry window, and
    [ttl = 0] applies the default TTL. *)
Definition cache_set (now : Z) (k : string) (x : Object) (d : Z) (s : CacheStore) : CacheStore :=
  {| defaultTTL := defaultTTL s;
     sweepInterval := sweepInterval s;
     entries := <[k := {| entry_value := x; entry_storedAt := now;
                          entry_ttl := if d =? 0 then defaultTTL s else d |}]> (entries s) |}.

(** Modelled from the spec: [loadFile] of the absent cache package replaces
    the snapshot by the decoded one. *)
Definition cache_load (snapshot : gmap string CacheEntry) (s : CacheStore) : CacheStore :=
  {| defaultTTL := defaultTTL s; sweepInterval := sweepInterval s; entries := snapshot |}.

(** ** The Go standard library, as an interface *)

(** Package [net/url]. *)
Class UrlPkg := {
  URL : Type;
  url_Parse : string → URL + error;
  URL_String : URL → string;
  URL_setRawQuery : URL → string → URL;
  url_Values_Encode : list (string * string) → string }.

Section Requests.
Context `{UrlPkg}.

Record Request := {
  Request_Method : string;
  Request_URL : URL;
  Request_Header : list (string * string) }.

(** What [ioutil.ReadAll(resp.Body)] will yield. *)
Inductive Body :=
| BodyOK (data : list byte)
| BodyErr (partial : list byte) (err : error).

Record Response := {
  StatusCode : Z;
  Response_Body : Body }.

(** The answer of the transport to one request, and the time it took. *)
Record Reply := {
  reply_elapsed : Z;
  reply_result : Response + error }.
End Requests.

(** The network and the remaining library functions.  [http_Do] sees the
    requests sent before, so a server may answer the same request
    differently each time. *)
Class Runtime `{UrlPkg} := {
  http_Do : list Request → Request → Reply;
  http_StatusText : Z → string;
  json_Unmarshal_Candidates : list byte → list Candidate + error;
  json_Unmarshal_Episodes : list byte → list Episode + error;
  gob_Decode : list byte → gmap string CacheEntry + error }.

(** ** The client (lines 20-28) *)

(** [Cache] is a pointer: an index into the cache stores of the [World].
    [Timeout] is the one field of the embedded [*http.Client] that
    [NewClient] sets. *)
Record Client := {
  Debug : bool;
  BaseURI : string;
  Region : string;
  Cache : nat;
  CacheFile : string;
  UseCache : bool;
  Timeout : Z }.

Section Program.
Context `{Runtime} `{StringsPkg}.

(** ** The world the client runs in

    [sent] and [fetches] are traces kept for the proofs: the requests
    handed to the transport and the URIs [Go] was called with, oldest
    first.  [printed] collects the debug lines. *)
Record World := {
  clock : Z;
  caches : list CacheStore;
  files : gmap string (list byte);
  sent : list Request;
  fetches : list string;
  printed : list string }.

Definition M (A : Type) : Type := World → Outcome A * World.

#[local] Instance M_ret : MRet M := λ A (a : A) (w : World), (Done a, w).

#[local] Instance M_bind : MBind M := λ A B (f : A → M B) (m : M A) (w : World),
  match m w with
  | (Done a, w') => f a w'
  | (Panic msg, w') => (Panic msg, w')
  | (Exit code, w') => (Exit code, w')
  end.

Definition panic {A} (msg : string) : M A := λ w, (Panic msg, w).

Definition set_clock (t : Z) (w : World) : World :=
  {| clock := t; caches := caches w; files := files w; sent := sent w;
     fetches := fetches w; printed := printed w |}.
Definition set_caches (cs : list CacheStore) (w : World) : World :=
  {| clock := clock w; caches := cs; files := files w; sent := sent w;
     fetches := fetches w; printed := printed w |}.
Definition set_sent (rs : list Request) (w : World) : World :=
  {| clock := clock w; caches := caches w; files := files w; sent := rs;
     fetches := fetches w; printed := printed w |}.
Definition set_fetches (us : list string) (w : World) : World :=
  {| clock := clock w; caches := caches w; files := files w; sent := sent w;
     fetches := us; printed := printed w |}.
Definition set_printed (ls : list string) (w : World) : World :=
  {| clock := clock w; caches := caches w; files := files w; sent := sent w;
     fetches := fetches w; printed := ls |}.

(** *** Primitives *)

(** [log.Print], [fmt.Printf]: one more line of output. *)
Definition print (line : string) : M unit :=
  λ w, (Done tt, set_printed (printed w ++ [line]) w).

(** [log.Fatal(err)]: print, then [os.Exit(1)]. *)
Definition log_Fatal {A} (err : error) : M A :=
  λ w, (Exit 1, set_printed (printed w ++ [error_Error err]) w).

(** [cache.New]: a fresh store on the heap; the pointer to it. *)
Definition Cache_New (defaultExpiration cleanupInterval : Z) : M nat :=
  λ w, (Done (length (caches w)),
        set_caches (caches w ++ [cache_New defaultExpiration cleanupInterval]) w).

(** [c.Cache.Get(k)]; a nil or dangling [Cache] panics. *)
Definition Cache_Get (p : nat) (k : string) : M (Object * bool) :=
  λ w, match caches w !! p with
       | Some s => (Done (cache_get (clock w) k s), w)
       | None => (Panic "nil pointer dereference", w)
       end.

(** [c.Cache.Set(k, x, d)]. *)
Definition Cache_Set (p : nat) (k : string) (x : Object) (d : Z) : M unit :=
  λ w, match caches w !! p with
       | Some s => (Done tt, set_caches (<[p := cache_set (clock w) k x d s]> (caches w)) w)
       | None => (Panic "nil pointer dereference", w)
       end.

(** [os.Stat(path)]: [None] is [err == nil]. *)
Definition os_Stat (path : string) : M (option error) :=
  λ w, match files w !! path with
       | Some _ => (Done None, w)
       | None => (Done (Some (LibError "os" "no such file or directory")), w)
       end.

(** Modelled from the spec: [loadFile(path)] of the absent cache package;
    a malformed file is an error, an absent file is not. *)
Definition Cache_LoadFile (p : nat) (path : string) : M (option error) :=
  λ w, match caches w !! p with
       | None => (Panic "nil pointer dereference", w)
       | Some s =>
           match files w !! path with
           | None => (Done None, w)
           | Some content =>
               match gob_Decode content with
               | inl snapshot =>
                   (Done None, set_caches (<[p := cache_load snapshot s]> (caches w)) w)
               | inr err => (Done (Some err), w)
               end
           end
       end.

(** [http.NewRequest(method, url, nil)]: the URL is parsed, the header
    set is empty. *)
Definition http_NewRequest (method url : string) : Request + error :=
  match url_Parse url with
  | inl u => inl {| Request_Method := method; Request_URL := u; Request_Header := [] |}
  | inr err => inr err
  end.

(** [c.Do(request)]: the request goes to the transport; the clock moves
    by the time the exchange took. *)
Definition Client_Do (request : Request) : M (Response + error) :=
  λ w, let reply := http_Do (sent w) request in
       (Done (reply_result reply),
        set_clock (clock w + reply_elapsed reply) (set_sent (sent w ++ [request]) w)).

(** [ioutil.ReadAll(resp.Body)]. *)
Definition ioutil_ReadAll (b : Body) : list byte * option error :=
  match b with
  | BodyOK data => (data, None)
  | BodyErr partial err => (partial, Some err)
  end.

(** Trace only: [Go] was entered with this URI. *)
Definition enter_Go (uri : string) : M unit :=
  λ w, (Done tt, set_fetches (fetches w ++ [uri]) w).

(** *** [Go] (lines 141-174) *)

(** [return data.([]byte), nil]: the type assertion panics unless the
    dynamic type is [[]byte]. *)
Definition Go_return (data : Object) : M (list byte * option error) :=
  match data with
  | ObjBytes b => mret (b, None)
  | _ => panic "interface conversion: interface {} is not []uint8"
  end.

Definition Go (c : Client) (uri : URL) : M (list byte * option error) :=
  _ ← enter_Go (URL_String uri);
  '(data, found) ← Cache_Get (Cache c) (URL_String uri);
  if negb found || negb (UseCache c) then
    _ ← (if Debug c then print ("cache miss: " +:+ URL_String uri +:+ newline) else mret tt);
    match http_NewRequest "GET" (URL_String uri) with
    | inr err => mret ([], Some err)
    | inl request =>
        r ← Client_Do request;
        match r with
        | inr err => mret ([], Some err)
        | inl resp =>
            if negb (StatusCode resp =? 200) then
              mret ([], Some (errors_New
                                ("Request failed: " +:+ http_StatusText (StatusCode resp))))
            else
              match ioutil_ReadAll (Response_Body resp) with
              | (_, Some err) => mret ([], Some err)
              | (body, None) =>
                  _ ← Cache_Set (Cache c) (URL_String uri) (ObjBytes body) 0;
                  Go_return (ObjBytes body)
              end
        end
    end
  else
    _ ← (if Debug c then print ("cache hit: " +:+ URL_String uri +:+ newline) else mret tt);
    Go_return data.

(** *** [GetShow] (lines 92-115) *)

Definition GetShow (c : Client) (show : string) : M (list Candidate * option error) :=
  let route := "/search/shows" in
  match url_Parse (BaseURI c +:+ route) with
  | inr err => log_Fatal err
  | inl uri =>
      let uri := URL_setRawQuery uri (url_Values_Encode [("q", show)]) in
      '(jsondata, err) ← Go c uri;
      match err with
      | Some err => mret ([], Some err)
      | None =>
          match json_Unmarshal_Candidates jsondata with
          | inr err => mret ([], Some err)
          | inl candidates => mret (candidates, None)
          end
      end
  end.

(** *** [FindShow] (lines 63-89) *)

Definition FindShow (c : Client) (showname : string) : M (Show * option error) :=
  '(candidates, err) ← GetShow c showname;
  match err with
  | Some err => mret (zeroShow, Some err)
  | None =>
      match FindShow_loops (Region c) showname candidates with
      | Some show => mret (show, None)
      | None => mret (zeroShow, Some (errors_New "Failed to match show in tvmaze!"))
      end
  end.

(** *** [GetEpisodes] (lines 118-137) *)

Definition GetEpisodes (c : Client) (showID : Z) : M (list Episode * option error) :=
  let route := "/shows/" +:+ fmt_d showID +:+ "/episodes" in
  match url_Parse (BaseURI c +:+ route) with
  | inr err => mret ([], Some err)
  | inl uri =>
      '(jsondata, err) ← Go c uri;
      match err with
      | Some err => mret ([], Some err)
      | None =>
          match json_Unmarshal_Episodes jsondata with
          | inr err => mret ([], Some err)
          | inl episodes => mret (episodes, None)
          end
      end
  end.

(** *** [NewClient] (lines 31-51) *)

Definition NewClient (cachefile : string) : M (option Client * option error) :=
  c ← Cache_New (time_Minute * 60 * 24 * 7) (time_Minute * 60);
  st ← os_Stat cachefile;
  loaded ← match st with
           | None => Cache_LoadFile c cachefile
           | Some _ => mret None
           end;
  match loaded with
  | Some err => mret (None, Some err)
  | None =>
      let timeout := 180 * time_Second in
      mret (Some {| Debug := false; BaseURI := "http://api.tvmaze.com"; Region := "";
                    Cache := c; CacheFile := cachefile; UseCache := false;
                    Timeout := timeout |},
            None)
  end.
End Program.

(** ** The resolver, in the words of its description

    These definitions follow the prose of the design document, not the
    code; the theorems below compare them with [FindShow_loops]. *)

Section Described.
Context `{StringsPkg}.

Definition countryCode (cand : Candidate) : string :=
  Country_Code (Network_Country (Show_Network (Candidate_Show cand))).

(** The name equals the query, ignoring case. *)
Definition nameEquals (showname : string) (cand : Candidate) : bool :=
  String.eqb (strings_ToLower (Show_Name (Candidate_Show cand))) (strings_ToLower showname).

(** The name starts with the query (case-sensitive). *)
Definition namePrefix (showname : string) (cand : Candidate) : bool :=
  strings_HasPrefix (Show_Name (Candidate_Show cand)) showname.

(** Pass 1 accepts: the country code is the region and the name starts with
    the query. *)
Definition regionPrefix (region showname : string) (cand : Candidate) : bool :=
  String.eqb region (countryCode cand) && namePrefix showname cand.

(** Pass 1, only performed when a region is set: first accepted candidate
    in rank order. *)
Definition pass1 (region showname : string) (candidates : list Candidate) : option Show :=
  if String.eqb region "" then None
  else Candidate_Show <$> List.find (regionPrefix region showname) candidates.

(** Pass 2 as described: an equality scan, and only if it accepts nothing a
    prefix scan. *)
Definition pass2_described (showname : string) (candidates : list Candidate) : option Show :=
  match List.find (nameEquals showname) candidates with
  | Some cand => Some (Candidate_Show cand)
  | None => Candidate_Show <$> List.find (namePrefix showname) candidates
  end.

(** Pass 2 as one scan: the first candidate that matches by equality or by
    prefix. *)
Definition pass2_single (showname : string) (candidates : list Candidate) : option Show :=
  Candidate_Show <$>
    List.find (λ cand, nameEquals showname cand || namePrefix showname cand) candidates.

(** A candidate is accepted by one of the two passes. *)
Definition accepted (region showname : string) (cand : Candidate) : bool :=
  (negb (String.eqb region "") && regionPrefix region showname cand)
  || nameEquals showname cand || namePrefix showname cand.

End Described.

(** The error of line 88. *)
Definition NotFound : error := errors_New "Failed to match show in tvmaze!".

(** The cache invariant behind the type assertion of [Go]: every stored
    value is a byte sequence. *)
Definition is_bytes (x : Object) : bool :=
  match x with ObjBytes _ => true | _ => false end.

Definition all_bytes (s : CacheStore) : Prop :=
  ∀ k e, entries s !! k = Some e → is_bytes (entry_value e) = true.

Section Executions.
Context `{Runtime}.

(** The cache behind pointer [p] exists and holds byte sequences only. *)
Definition cache_ok (p : nat) (w : World) : Prop :=
  ∃ s, caches w !! p = Some s ∧ all_bytes s.

(** [fetched p w0 w]: [w] is reached from [w0] by calls of [Go] alone, on
    clients that share the cache [p]; the flags and the URI may change from
    call to call. *)
Inductive fetched (p : nat) (w0 : World) : World → Prop :=
| fetched_start : fetched p w0 w0
| fetched_Go c uri w :
    fetched p w0 w → Cache c = p → fetched p w0 (Go c uri w).2.
End Executions.

(** ** The two branches of [Go], written out

    These restate [Go] branch by branch as plain expressions; the lemmas
    [Go_on_network] and [Go_on_cache] below prove them equal to [Go]. *)

Section Branches.
Context `{Runtime}.
Implicit Types (c : Client) (uri : URL) (w : World) (s : CacheStore).

(** The world once [Go] has noted the call and printed its debug line. *)
Definition Go_entered c uri (line : string) w : World :=
  let w0 := set_fetches (fetches w ++ [URL_String uri]) w in
  if Debug c then set_printed (printed w0 ++ [line +:+ URL_String uri +:+ newline]) w0
  else w0.

(** The network branch of [Go], written out as one expression. *)
Definition Go_network c uri s w : Outcome (list byte * option error) * World :=
  let w1 := Go_entered c uri "cache miss: " w in
  match http_NewRequest "GET" (URL_String uri) with
  | inr err => (Done ([], Some err), w1)
  | inl request =>
      let reply := http_Do (sent w) request in
      let w2 := set_clock (clock w + reply_elapsed reply)
                          (set_sent (sent w ++ [request]) w1) in
      match reply_result reply with
      | inr err => (Done ([], Some err), w2)
      | inl resp =>
          if negb (StatusCode resp =? 200) then
            (Done ([], Some (errors_New
                               ("Request failed: " +:+ http_StatusText (StatusCode resp)))),
             w2)
          else
            match Response_Body resp with
            | BodyErr _ err => (Done ([], Some err), w2)
            | BodyOK body =>
                (Done (body, None),
                 set_caches (<[Cache c := cache_set (clock w2) (URL_String uri)
                                                    (ObjBytes body) 0 s]> (caches w)) w2)
            end
      end
  end.
End Branches.

(** ** Case folds to run the model with

    [asciiStrings] is [strings.ToLower] as it acts on ASCII text;
    [latin1Strings] also lowers the capital letters of the Latin-1
    supplement, U+00C0 to U+00DE without the sign U+00D7, which UTF-8 writes
    as the byte 195 followed by a byte from 128 to 158.  Each stands for
    [strings.ToLower] on valid UTF-8 names made of the letters it knows, and
    is used on such names only. *)

Definition asciiStrings : StringsPkg :=
  {| strings_ToLower := asciiLower; strings_ToLower_ascii := λ s _, eq_refl |}.

Definition lowerLatin1 (d : ascii) : ascii :=
  let n := N_of_ascii d in
  if ((128 <=? n) && (n <=? 158) && negb (n =? 151))%N then ascii_of_N (n + 32) else d.

Fixpoint latin1Lower (s : string) : string :=
  match s with
  | EmptyString => EmptyString
  | String c rest =>
      if (N_of_ascii c =? 195)%N then
        match rest with
        | EmptyString => String c EmptyString
        | String d rest' => String c (String (lowerLatin1 d) (latin1Lower rest'))
        end
      else String (lowerByte c) (latin1Lower rest)
  end.

Lemma latin1Lower_ascii s : isASCII s = true → latin1Lower s = asciiLower s.
Proof.
  induction s as [|c rest IH]; [done|]. cbn [isASCII latin1Lower asciiLower].
  intros [Hc Hrest]%andb_true_iff. apply N.ltb_lt in Hc.
  destruct (N.eqb_spec (N_of_ascii c) 195) as [Heq|_]; [lia|].
  by rewrite IH.
Qed.

Definition latin1Strings : StringsPkg :=
  {| strings_ToLower := latin1Lower; strings_ToLower_ascii := latin1Lower_ascii |}.

(** ** A small runtime to run the model on

    URLs are kept as their text, and a URL with a blank in it does not
    parse.  The server, the decoders and the status table are supplied per
    example. *)

Fixpoint hasBlank (s : string) : bool :=
  match s with
  | EmptyString => false
  | String c rest => Ascii.eqb c " " || hasBlank rest
  end.

Definition textUrl : UrlPkg := {|
  URL := string;
  url_Parse := λ s, if hasBlank s then inr (LibError "url" "invalid character in URL") else inl s;
  URL_String := λ u, u;
  URL_setRawQuery := λ u q, u +:+ "?" +:+ q;
  url_Values_Encode := λ kvs, match kvs with
                              | [(k, v)] => k +:+ "=" +:+ v
                              | _ => ""
                              end |}.

Definition theURL (s : string) : @URL textUrl := s.

Definition statusText (code : Z) : string :=
  if code =? 200 then "OK"
  else if code =? 404 then "Not Found"
  else if code =? 500 then "Internal Server Error"
  else "".

Definition testRuntime
           (server : list Request → Request → Reply)
           (candidates : list byte → list Candidate + error)
           (episodes : list byte → list Episode + error)
           (gob : list byte → gmap string CacheEntry + error) : @Runtime textUrl :=
  {| http_Do := server; http_StatusText := statusText;
     json_Unmarshal_Candidates := candidates; json_Unmarshal_Episodes := episodes;
     gob_Decode := gob |}.

Definition mkShow (name code : string) : Show :=
  Build_Show 0 "" name "" "" [] "" 0 "" (Build_Schedule "" []) (Build_Rating 0) 0
             (Build_Network 0 "" (Build_Country "" code "")) (Build_External 0 0)
             (Build_Image "" "") "" 0 zeroLinks.

Definition mkCand (name code : string) : Candidate := Build_Candidate 0 (mkShow name code).

(** A server that answers every request alike. *)
Definition fixedServer (code : Z) (body : @Body) : list (@Request textUrl) → @Request textUrl → @Reply :=
  λ _ _, {| reply_elapsed := 5;
            reply_result := inl {| StatusCode := code; Response_Body := body |} |}.

Definition week : Z := time_Minute * 60 * 24 * 7.
Definition hour : Z := time_Minute * 60.

Definition bytes (s : string) : list byte := list_byte_of_string s.

Definition testRT (code : Z) (body : string)
           (candidates : list Candidate) (episodes : list Episode) : @Runtime textUrl :=
  testRuntime (fixedServer code (BodyOK (bytes body)))
              (λ _, inl candidates) (λ _, inl episodes)
              (λ _, inr (LibError "gob" "unexpected EOF")).

Definition testClient (useCache : bool) (region : string) : Client :=
  {| Debug := false; BaseURI := "http://api.tvmaze.com"; Region := region; Cache := 0;
     CacheFile := "tvmaze.cache"; UseCache := useCache; Timeout := 180 * time_Second |}.

(** One empty cache store, nothing sent yet. *)
Definition freshWorld : @World textUrl :=
  {| clock := 0; caches := [cache_New week hour]; files := ∅;
     sent := []; fetches := []; printed := [] |}.

(** The same, with a live entry for one URI. *)
Definition warmWorld (uri body : string) : @World textUrl :=
  {| clock := 10;
     caches := [cache_set 0 uri (ObjBytes (bytes body)) 0 (cache_New week hour)];
     files := ∅; sent := []; fetches := []; printed := [] |}.

(** No cache store at all, and one file. *)
Definition diskWorld (path content : string) : @World textUrl :=
  {| clock := 0; caches := []; files := {[ path := bytes content ]};
     sent := []; fetches := []; printed := [] |}.

Definition mkEpisode (id season number : Z) (name : string) : Episode :=
  Build_Episode id "" name season number "" "" "" 0 "" zeroLinks.

(** ** Writing the cache to disk (lines 53-60) *)

(** The writing side of the libraries: the gob encoder and [os.Create],
    whose error, if any, depends on the path. *)
Class SavePkg := {
  gob_Encode : gmap string CacheEntry → list byte;
  os_Create : string → option error }.

Section Persistence.
Context `{Runtime} `{SavePkg}.
#[local] Existing Instances M_ret M_bind.

Definition set_files (fs : gmap string (list byte)) (w : World) : World :=
  {| clock := clock w; caches := caches w; files := fs; sent := sent w;
     fetches := fetches w; printed := printed w |}.

(** Modelled from the spec: [saveFile(path)] of the absent cache package;
    the snapshot is serialized to the path, fully overwriting it, and a
    write failure is an error. *)
Definition Cache_SaveFile (p : nat) (path : string) : M (option error) :=
  λ w, match caches w !! p with
       | None => (Panic "nil pointer dereference", w)
       | Some s =>
           match os_Create path with
           | Some err => (Done (Some err), w)
           | None => (Done None, set_files (<[path := gob_Encode (entries s)]> (files w)) w)
           end
       end.

Definition WriteCache (c : Client) : M (option error) :=
  err ← Cache_SaveFile (Cache c) (CacheFile c);
  match err with
  | Some err => mret (Some err)
  | None => mret None
  end.
End Persistence.

(** The caller sets [c.UseCache]. *)
Definition with_UseCache (b : bool) (c : Client) : Client :=
  {| Debug := Debug c; BaseURI := BaseURI c; Region := Region c; Cache := Cache c;
     CacheFile := CacheFile c; UseCache := b; Timeout := Timeout c |}.

(** More of the small runtime: a server that is down, a body that breaks
    off, a cache entry past its time, an entry that is no byte sequence, a
    codec that knows one snapshot. *)
Definition downServer (err : error) : list (@Request textUrl) → @Request textUrl → @Reply :=
  λ _ _, {| reply_elapsed := 180 * time_Second; reply_result := inr err |}.

Definition downRT (err : error) : @Runtime textUrl :=
  testRuntime (downServer err) (λ _, inl []) (λ _, inl [])
              (λ _, inr (LibError "gob" "unexpected EOF")).

Definition brokenRT (partial : string) (err : error) : @Runtime textUrl :=
  testRuntime (fixedServer 200 (BodyErr (bytes partial) err)) (λ _, inl []) (λ _, inl [])
              (λ _, inr (LibError "gob" "unexpected EOF")).

Definition badJsonRT (body : string) (err : error) : @Runtime textUrl :=
  testRuntime (fixedServer 200 (BodyOK (bytes body))) (λ _, inr err) (λ _, inr err)
              (λ _, inr (LibError "gob" "unexpected EOF")).

Definition getRequest (uri : string) : @Request textUrl :=
  {| Request_Method := "GET"; Request_URL := theURL uri; Request_Header := [] |}.

Definition staleWorld (uri body : string) : @World textUrl :=
  {| clock := week + 1;
     caches := [cache_set 0 uri (ObjBytes (bytes body)) 0 (cache_New week hour)];
     files := ∅; sent := []; fetches := []; printed := [] |}.

Definition foreignWorld (uri text : string) : @World textUrl :=
  {| clock := 10;
     caches := [cache_set 0 uri (ObjString text) 0 (cache_New week hour)];
     files := ∅; sent := []; fetches := []; printed := [] |}.

Definition debugClient (useCache : bool) : Client :=
  {| Debug := true; BaseURI := "http://api.tvmaze.com"; Region := ""; Cache := 0;
     CacheFile := "tvmaze.cache"; UseCache := useCache; Timeout := 180 * time_Second |}.

Definition badBaseClient : Client :=
  {| Debug := false; BaseURI := "http://api tvmaze"; Region := ""; Cache := 0;
     CacheFile := "tvmaze.cache"; UseCache := false; Timeout := 180 * time_Second |}.

Definition oneSnapshot (uri body : string) : gmap string CacheEntry :=
  entries (cache_set 0 uri (ObjBytes (bytes body)) 0 (cache_New week hour)).

Definition codecRT (snapshot : gmap string CacheEntry) : @Runtime textUrl :=
  testRuntime (fixedServer 200 (BodyOK (bytes "fresh"))) (λ _, inl []) (λ _, inl [])
              (λ _, inl snapshot).

Definition codecSave (tag : string) (denied : option error) : SavePkg :=
  {| gob_Encode := λ _, bytes tag; os_Create := λ _, denied |}.

Example ex_fringe :
  @FindShow_loops asciiStrings "" "fringe" [mkCand "Fringe" "US"] = Some (mkShow "Fringe" "US").
Proof. reflexivity. Qed.

Example ex_archer :
  @FindShow_loops asciiStrings "" "Archer" [mkCand "Archer (2009)" "US"] = Some (mkShow "Archer (2009)" "US").
Proof. reflexivity. Qed.

Example ex_none : @FindShow_loops asciiStrings "" "NoSuchShow" [mkCand "Fringe" "US"] = None.
Proof. reflexivity. Qed.

(** The region scan goes before rank: the second candidate is the CA one. *)
Example ex_region_over_rank :
  @FindShow_loops asciiStrings "CA" "Lost Girl" [mkCand "Lost Girl" "US"; mkCand "Lost Girl" "CA"]
  = Some (mkShow "Lost Girl" "CA").
Proof. reflexivity. Qed.

(** Without a region, an exact name further down wins over a prefix. *)
Example ex_exact_over_prefix :
  @FindShow_loops asciiStrings "" "Archer" [mkCand "Archer (2009)" "CA"; mkCand "Archer" "CA"]
  = Some (mkShow "Archer" "CA").
Proof. reflexivity. Qed.

Example ex_fmt_d : fmt_d 82 = "82" ∧ fmt_d 0 = "0" ∧ fmt_d (-7) = "-7".
Proof. repeat split; reflexivity. Qed.

(** The one request behind [GetEpisodes(82)] on a fresh client. *)
Example ex_request_sent :
  sent (@GetEpisodes textUrl (testRT 200 "[]" [] []) (testClient false "") 82 freshWorld).2
  = [{| Request_Method := "GET";
        Request_URL := theURL "http://api.tvmaze.com/shows/82/episodes";
        Request_Header := [] |}].
Proof. vm_compute. reflexivity. Qed.

(** ** The matching loops *)

(** With a fold that knows the letter, a capital E with acute matches its
    small form: the exact name further down wins over the prefix. *)
Example ex_ecole :
  @FindShow_loops latin1Strings "" "ÉCOLE" [mkCand "ÉCOLE 2" "FR"; mkCand "école" "FR"]
  = Some (mkShow "école" "FR")
  ∧ @FindShow_loops latin1Strings "" "ÉCOLE" [mkCand "école" "FR"]
    = Some (mkShow "école" "FR").
Proof. split; reflexivity. Qed.

Section MatchingFacts.
Context `{StringsPkg}.
Variables (region showname : string).

Lemma FindShow_loops_unfold candidates :
  FindShow_loops region showname candidates =
  match FindShow_range region showname 0 candidates with
  | Some show => Some show
  | None => FindShow_range region showname 1 candidates
  end.
Proof.
  unfold FindShow_loops; cbn [FindShow_for].
  change (0 <=? 1) with true; change (0 + 1 <=? 1) with true;
    change (0 + 1 + 1 <=? 1) with false; cbn iota.
  change (0 + 1) with 1.
  by destruct (FindShow_range region showname 0 candidates),
              (FindShow_range region showname 1 candidates).
Qed.

(** With a region, the first run of the inner loop is the region scan. *)
Lemma FindShow_range_0_region candidates :
  String.eqb region "" = false →
  FindShow_range region showname 0 candidates =
  Candidate_Show <$> List.find (regionPrefix region showname) candidates.
Proof.
  intros Hr. induction candidates as [|cand rest IH]; [done|].
  cbn [FindShow_range List.find]. rewrite Hr. change (0 <? 1) with true. cbn [negb andb].
  unfold regionPrefix at 1, namePrefix, countryCode.
  destruct (_ && _); [done | exact IH].
Qed.

(** Without one, it is the equality scan. *)
Lemma FindShow_range_0_noregion candidates :
  String.eqb region "" = true →
  FindShow_range region showname 0 candidates =
  Candidate_Show <$> List.find (nameEquals showname) candidates.
Proof.
  intros Hr. induction candidates as [|cand rest IH]; [done|].
  cbn [FindShow_range List.find]. rewrite Hr. change (0 >? 0) with false. cbn [negb andb].
  unfold nameEquals at 1.
  destruct (String.eqb (strings_ToLower _) _); [done | exact IH].
Qed.

(** The second run accepts equality or prefix, candidate by candidate. *)
Lemma FindShow_range_1 candidates :
  FindShow_range region showname 1 candidates = pass2_single showname candidates.
Proof.
  unfold pass2_single. induction candidates as [|cand rest IH]; [done|].
  cbn [FindShow_range List.find]. change (1 <? 1) with false. change (1 >? 0) with true.
  rewrite andb_false_r. cbn [andb].
  unfold nameEquals at 1, namePrefix at 1.
  destruct (String.eqb (strings_ToLower _) _); [done|]. cbn [orb].
  destruct (strings_HasPrefix _ _); [done | exact IH].
Qed.
End MatchingFacts.

Lemma find_orb_none {A} (f g : A → bool) (l : list A) :
  List.find f l = None → List.find (λ x, f x || g x) l = List.find g l.
Proof.
  induction l as [|x l IH]; [done|]. cbn [List.find].
  destruct (f x); [done|]. cbn [orb]. intros Hf. destruct (g x); [done | auto].
Qed.

Section ResolverFacts.
Context `{StringsPkg}.

(** Both loops together: the region scan when a region is set; then the
    scan as described when no region is set, and the single scan when one
    is. *)
Lemma FindShow_loops_passes region showname candidates :
  FindShow_loops region showname candidates =
  match pass1 region showname candidates with
  | Some show => Some show
  | None => if String.eqb region "" then pass2_described showname candidates
            else pass2_single showname candidates
  end.
Proof.
  rewrite FindShow_loops_unfold, FindShow_range_1. unfold pass1.
  destruct (String.eqb region "") eqn:Hr.
  - rewrite FindShow_range_0_noregion by done. unfold pass2_described, pass2_single.
    destruct (List.find (nameEquals showname) candidates) eqn:Hf; [done|].
    cbn. by rewrite find_orb_none.
  - rewrite FindShow_range_0_region by done.
    by destruct (List.find (regionPrefix region showname) candidates).
Qed.

Lemma find_fmap_None {A B} (f : A → bool) (g : A → B) (l : list A) :
  g <$> List.find f l = None ↔ ∀ x, x ∈ l → f x = false.
Proof.
  split.
  - intros Hf x Hx. destruct (List.find f l) eqn:E; [done|].
    apply (find_none f l E). by apply list_elem_of_In.
  - intros Hall. destruct (List.find f l) as [x|] eqn:E; [|done].
    apply find_some in E as [Hin Hfx]. apply list_elem_of_In in Hin.
    rewrite (Hall x Hin) in Hfx. done.
Qed.

Lemma find_fmap_Some {A B} (f : A → bool) (g : A → B) (l : list A) (y : B) :
  g <$> List.find f l = Some y → ∃ x, x ∈ l ∧ y = g x ∧ f x = true.
Proof.
  destruct (List.find f l) as [x|] eqn:E; [|done]. intros [= <-].
  apply find_some in E as [Hin Hfx]. exists x. by rewrite list_elem_of_In.
Qed.

(** Whatever the loops return was accepted by one of the passes. *)
Lemma FindShow_loops_Some region showname candidates show :
  FindShow_loops region showname candidates = Some show →
  ∃ cand, cand ∈ candidates ∧ show = Candidate_Show cand
          ∧ accepted region showname cand = true.
Proof.
  rewrite FindShow_loops_passes. unfold pass1, pass2_described, pass2_single, accepted.
  destruct (String.eqb region "") eqn:Hr; cbn [negb andb orb].
  - destruct (List.find (nameEquals showname) candidates) as [cand|] eqn:E.
    + intros [= <-]. apply find_some in E as [Hin Hf]. exists cand.
      rewrite list_elem_of_In, Hf. done.
    + intros (cand & Hin & -> & Hf)%find_fmap_Some. exists cand.
      rewrite Hf, orb_true_r. done.
  - destruct (Candidate_Show <$> List.find (regionPrefix region showname) candidates)
      as [s|] eqn:E.
    + intros [= <-]. apply find_fmap_Some in E as (cand & Hin & -> & Hf).
      exists cand. by rewrite Hf.
    + intros (cand & Hin & -> & Hf)%find_fmap_Some. exists cand.
      rewrite <- orb_assoc, Hf, orb_true_r. done.
Qed.

(** The loops fall through exactly when no candidate is accepted. *)
Lemma FindShow_loops_None region showname candidates :
  FindShow_loops region showname candidates = None ↔
  ∀ cand, cand ∈ candidates → accepted region showname cand = false.
Proof.
  split.
  - rewrite FindShow_loops_passes. unfold pass1, pass2_described, pass2_single, accepted.
    destruct (String.eqb region "") eqn:Hr; cbn [negb andb orb].
    + destruct (List.find (nameEquals showname) candidates) as [x|] eqn:E; [done|].
      intros Hp cand Hin.
      rewrite (find_none _ _ E cand) by (by apply list_elem_of_In).
      by rewrite (proj1 (find_fmap_None _ _ _) Hp cand Hin).
    + destruct (Candidate_Show <$> List.find (regionPrefix region showname) candidates)
        eqn:E; [done|].
      intros Hp cand Hin.
      pose proof (proj1 (find_fmap_None _ _ _) Hp cand Hin) as Hor.
      apply orb_false_elim in Hor as [He Hpre].
      unfold regionPrefix. by rewrite He, Hpre, andb_false_r.
  - intros Hall. destruct (FindShow_loops region showname candidates) as [show|] eqn:E; [|done].
    apply FindShow_loops_Some in E as (cand & Hin & _ & Hacc).
    rewrite (Hall cand Hin) in Hacc. done.
Qed.

(** ** Claims about the resolver *)

(** C1 (amended).  When resolution reaches pass 2 and no region is set, the
    candidates are scanned for a case-insensitive name equality first and
    for a case-sensitive prefix only if that scan accepts nothing.  When a
    region is set, pass 2 is a single scan in rank order that returns the
    first candidate matching by equality or by prefix. *)
Theorem FindShow_pass2 region showname candidates :
  pass1 region showname candidates = None →
  FindShow_loops region showname candidates =
  if String.eqb region "" then pass2_described showname candidates
  else pass2_single showname candidates.
Proof.
  intros Hp. rewrite FindShow_loops_passes, Hp. done.
Qed.


(** The same two candidates under every case fold that is
    [strings.ToLower] on ASCII text: with region "US" the loops return the
    earlier, prefix-only name, the scan as described the exact one. *)
Lemma FindShow_prefix_before_exact_any_fold :
  FindShow_loops "US" "Archer" [mkCand "Archer (2009)" "CA"; mkCand "Archer" "CA"]
  = Some (mkShow "Archer (2009)" "CA")
  ∧ pass2_described "Archer" [mkCand "Archer (2009)" "CA"; mkCand "Archer" "CA"]
    = Some (mkShow "Archer" "CA").
Proof.
  rewrite FindShow_loops_passes.
  unfold pass1, pass2_described, pass2_single, nameEquals. cbn -[strings_ToLower].
  rewrite !strings_ToLower_ascii by reflexivity. split; reflexivity.
Qed.
End ResolverFacts.

Lemma FindShow_pass2_witness :
  pass1 "US" "Archer" [mkCand "Archer (2009)" "CA"; mkCand "Archer" "CA"] = None
  ∧ @FindShow_loops asciiStrings "US" "Archer" [mkCand "Archer (2009)" "CA"; mkCand "Archer" "CA"]
    = @pass2_single asciiStrings "Archer" [mkCand "Archer (2009)" "CA"; mkCand "Archer" "CA"].
Proof.
  split; [reflexivity|].
  apply (@FindShow_pass2 asciiStrings "US" "Archer" [mkCand "Archer (2009)" "CA"; mkCand "Archer" "CA"]).
  reflexivity.
Defined.

(** C1 as stated fails: with region "US", pass 1 accepts neither candidate,
    and pass 2 returns the earlier, prefix-only "Archer (2009)" although the
    later "Archer" matches the query exactly. *)
Lemma FindShow_pass2_prefix_before_exact :
  pass1 "US" "Archer" [mkCand "Archer (2009)" "CA"; mkCand "Archer" "CA"] = None
  ∧ @FindShow_loops asciiStrings "US" "Archer" [mkCand "Archer (2009)" "CA"; mkCand "Archer" "CA"]
    = Some (mkShow "Archer (2009)" "CA")
  ∧ @pass2_described asciiStrings "Archer" [mkCand "Archer (2009)" "CA"; mkCand "Archer" "CA"]
    = Some (mkShow "Archer" "CA")
  ∧ @FindShow_loops asciiStrings "US" "Archer" [mkCand "Archer (2009)" "CA"; mkCand "Archer" "CA"]
    ≠ @pass2_described asciiStrings "Archer" [mkCand "Archer (2009)" "CA"; mkCand "Archer" "CA"].
Proof.
  repeat split; try reflexivity. vm_compute. discriminate.
Qed.


(** ** The fetch layer *)

Ltac unfold_M :=
  unfold mbind, mret, M_bind, M_ret, panic, print, enter_Go, Cache_Get, Cache_Set,
    Client_Do, Go_return in *.

Section GoFacts.
Context `{Runtime}.
Implicit Types (c : Client) (uri : URL) (w : World) (s : CacheStore).

Lemma cache_set_entry now k x d s :
  entries (cache_set now k x d s) !! k =
  Some {| entry_value := x; entry_storedAt := now;
          entry_ttl := if d =? 0 then defaultTTL s else d |}.
Proof. unfold cache_set; cbn. apply lookup_insert_eq. Qed.

Lemma cache_set_other now k k' x d s :
  k ≠ k' → entries (cache_set now k x d s) !! k' = entries s !! k'.
Proof. intros Hk. unfold cache_set; cbn. by apply lookup_insert_ne. Qed.

(** Every call of [Go] adds its URI to the trace of fetches, once. *)
Lemma Go_fetches c uri w :
  fetches (Go c uri w).2 = fetches w ++ [URL_String uri].
Proof.
  unfold Go. unfold_M. cbn.
  destruct (caches w !! Cache c) as [s|] eqn:Hs; cbn; [|done].
  destruct (cache_get (clock w) (URL_String uri) s) as [data found].
  destruct (negb found || negb (UseCache c)).
  - destruct (Debug c); cbn;
      (destruct (http_NewRequest "GET" (URL_String uri)) as [request|err]; cbn; [|done]);
      (destruct (reply_result (http_Do (sent w) request)) as [resp|err]; cbn; [|done]);
      (destruct (negb (StatusCode resp =? 200)); cbn; [done|]);
      (destruct (ioutil_ReadAll (Response_Body resp)) as [body [err|]]; cbn; [done|]);
      rewrite Hs; done.
  - destruct (Debug c); cbn; by destruct data.
Qed.

(** C3.  With the use-cache flag set and a live entry for the URI, [Go]
    returns the cached bytes and sends nothing.  With the flag clear it
    sends a request whatever the cache holds, and on a 200 response whose
    body is read in full it returns the body and overwrites the entry for
    the URI with it. *)
Theorem Go_cache_policy c uri w s :
  caches w !! Cache c = Some s →
  (∀ b, UseCache c = true →
        cache_get (clock w) (URL_String uri) s = (ObjBytes b, true) →
        ∃ w', Go c uri w = (Done (b, None), w')
              ∧ sent w' = sent w ∧ caches w' = caches w)
  ∧ (∀ request, UseCache c = false →
        http_NewRequest "GET" (URL_String uri) = inl request →
        sent (Go c uri w).2 = sent w ++ [request]
        ∧ ∀ resp body,
            reply_result (http_Do (sent w) request) = inl resp →
            StatusCode resp = 200 →
            Response_Body resp = BodyOK body →
            ∃ w' s', Go c uri w = (Done (body, None), w')
              ∧ caches w' = <[Cache c := s']> (caches w)
              ∧ caches w' !! Cache c = Some s'
              ∧ s' = cache_set (clock w + reply_elapsed (http_Do (sent w) request))
                               (URL_String uri) (ObjBytes body) 0 s
              ∧ entries s' !! URL_String uri =
                Some {| entry_value := ObjBytes body;
                        entry_storedAt := clock w + reply_elapsed (http_Do (sent w) request);
                        entry_ttl := defaultTTL s |}).
Proof.
  intros Hs. split.
  - intros b Hu Hg. unfold Go. unfold_M. cbn. rewrite Hs, Hg, Hu. cbn.
    destruct (Debug c); cbn; eexists; done.
  - intros request Hu Hreq. split.
    + unfold Go. unfold_M. cbn. rewrite Hs, Hu, Hreq.
      destruct (cache_get (clock w) (URL_String uri) s) as [data found].
      rewrite orb_true_r.
      destruct (Debug c); cbn;
        (destruct (reply_result (http_Do (sent w) request)) as [resp|err]; cbn; [|done]);
        (destruct (negb (StatusCode resp =? 200)); cbn; [done|]);
        (destruct (ioutil_ReadAll (Response_Body resp)) as [body [err|]]; cbn; [done|]);
        rewrite Hs; done.
    + intros resp body Hresp Hcode Hbody. unfold Go. unfold_M. cbn.
      rewrite Hs, Hu, Hreq.
      destruct (cache_get (clock w) (URL_String uri) s) as [data found].
      rewrite orb_true_r.
      assert (Hlt : (Cache c < length (caches w))%nat) by (by eapply lookup_lt_Some).
      destruct (Debug c); cbn; rewrite Hresp, Hcode, Hbody; cbn; rewrite Hs;
        eexists _, _; (split; [reflexivity|]); cbn;
        (split; [reflexivity|]);
        (split; [by apply list_lookup_insert_eq|]);
        (split; [reflexivity|]); apply cache_set_entry.
Qed.

(** C4.  When the transport answers with a status other than 200, [Go]
    returns no bytes and the error "Request failed: " followed by the
    status text of that code. *)
Theorem Go_status_error c uri w s request resp :
  caches w !! Cache c = Some s →
  (cache_get (clock w) (URL_String uri) s).2 = false ∨ UseCache c = false →
  http_NewRequest "GET" (URL_String uri) = inl request →
  reply_result (http_Do (sent w) request) = inl resp →
  StatusCode resp ≠ 200 →
  ∃ w', Go c uri w =
        (Done ([], Some (errors_New
                           ("Request failed: " +:+ http_StatusText (StatusCode resp)))), w').
Proof.
  intros Hs Hmiss Hreq Hresp Hcode. unfold Go. unfold_M. cbn. rewrite Hs, Hreq.
  destruct (cache_get (clock w) (URL_String uri) s) as [data found]. cbn in Hmiss.
  assert (negb found || negb (UseCache c) = true) as ->
    by (destruct Hmiss as [-> | ->]; [done | apply orb_true_r]).
  apply Z.eqb_neq in Hcode.
  destruct (Debug c); cbn; rewrite Hresp, Hcode; cbn; eexists; reflexivity.
Qed.

(** C9.  When [Go] returns an error it returns no bytes and leaves every
    cache store as it was; the cache changes only when [Go] returns a body
    without an error. *)
Theorem Go_error_keeps_cache c uri w out w' :
  Go c uri w = (out, w') →
  (∀ data err, out = Done (data, Some err) → data = [] ∧ caches w' = caches w)
  ∧ (caches w' ≠ caches w → ∃ body, out = Done (body, None)).
Proof.
  unfold Go. unfold_M. cbn.
  destruct (caches w !! Cache c) as [s|] eqn:Hs; cbn;
    [|intros [= <- <-]; split; [done | by intros []]].
  destruct (cache_get (clock w) (URL_String uri) s) as [data found].
  destruct (negb found || negb (UseCache c)).
  - destruct (Debug c); cbn;
      (destruct (http_NewRequest "GET" (URL_String uri)) as [request|err]; cbn;
         [|intros [= <- <-]; split; [by intros ? ? [= <- <-] | by intros []]]);
      (destruct (reply_result (http_Do (sent w) request)) as [resp|err]; cbn;
         [|intros [= <- <-]; split; [by intros ? ? [= <- <-] | by intros []]]);
      (destruct (negb (StatusCode resp =? 200)); cbn;
         [intros [= <- <-]; split; [by intros ? ? [= <- <-] | by intros []]|]);
      (destruct (ioutil_ReadAll (Response_Body resp)) as [body [err|]]; cbn;
         [intros [= <- <-]; split; [by intros ? ? [= <- <-] | by intros []]|]);
      rewrite Hs; intros [= <- <-]; (split; [done | eauto]).
  - destruct (Debug c); cbn; destruct data; intros [= <- <-];
      (split; [done | by intros []]).
Qed.
(** The store written by [Go] holds byte sequences if it did before. *)
Lemma cache_set_all_bytes now k body d s :
  all_bytes s → all_bytes (cache_set now k (ObjBytes body) d s).
Proof.
  intros Hs k' e. destruct (decide (k = k')) as [<-|Hne].
  - rewrite cache_set_entry. by intros [= <-].
  - rewrite cache_set_other by done. apply Hs.
Qed.

(** On a hit, the store hands out a value it holds. *)
Lemma cache_get_all_bytes now k s data :
  all_bytes s → cache_get now k s = (data, true) → is_bytes data = true.
Proof.
  intros Hs. unfold cache_get. destruct (entries s !! k) as [e|] eqn:He; [|done].
  destruct (entry_live now e); [|done]. intros [= <-]. by eapply Hs.
Qed.

(** The invariant is kept by [Go], and under it [Go] returns. *)
Lemma Go_cache_ok c uri w :
  cache_ok (Cache c) w →
  (∃ r, (Go c uri w).1 = Done r) ∧ cache_ok (Cache c) (Go c uri w).2.
Proof.
  intros (s & Hs & Hall). unfold Go. unfold_M. cbn. rewrite Hs.
  assert (Hlt : (Cache c < length (caches w))%nat) by (by eapply lookup_lt_Some).
  assert (Hkeep : ∀ w1, caches w1 = caches w → cache_ok (Cache c) w1)
    by (intros w1 Hw1; exists s; by rewrite Hw1).
  destruct (cache_get (clock w) (URL_String uri) s) as [data found] eqn:Hg.
  destruct (negb found || negb (UseCache c)) eqn:Hpath.
  - destruct (Debug c); cbn;
      (destruct (http_NewRequest "GET" (URL_String uri)) as [request|err]; cbn;
         [|split; [eauto | by apply Hkeep]]);
      (destruct (reply_result (http_Do (sent w) request)) as [resp|err]; cbn;
         [|split; [eauto | by apply Hkeep]]);
      (destruct (negb (StatusCode resp =? 200)); cbn;
         [split; [eauto | by apply Hkeep]|]);
      (destruct (ioutil_ReadAll (Response_Body resp)) as [body [err|]]; cbn;
         [split; [eauto | by apply Hkeep]|]);
      rewrite Hs; cbn; (split; [eauto|]);
      eexists; (split; [by apply list_lookup_insert_eq|]);
      by apply cache_set_all_bytes.
  - apply orb_false_elim in Hpath as [Hfound _]. apply negb_false_iff in Hfound as ->.
    pose proof (cache_get_all_bytes _ _ _ _ Hall Hg) as Hb.
    destruct data; try done.
    destruct (Debug c); cbn; (split; [eauto | by apply Hkeep]).
Qed.

(** C10.  Start from an empty cache and let [Go] be the only writer: every
    entry is then a byte sequence, so the next call of [Go] does not
    panic on its type assertion (it returns), and it keeps the cache that
    way. *)
Theorem Go_never_panics p w0 s0 w c uri :
  caches w0 !! p = Some s0 →
  entries s0 = ∅ →
  fetched p w0 w →
  Cache c = p →
  (∃ r, (Go c uri w).1 = Done r) ∧ cache_ok p (Go c uri w).2.
Proof.
  intros Hs0 Hempty Hrun Hc.
  assert (Hok : cache_ok p w).
  { induction Hrun as [|c' uri' w1 Hrun IH Hc'].
    - exists s0. split; [done|]. intros k e. by rewrite Hempty, lookup_empty.
    - rewrite <- Hc'. apply Go_cache_ok. by rewrite Hc'. }
  subst p. by apply Go_cache_ok.
Qed.

(** C8, what the code does: the requests [Go] sends are GET requests with
    an empty header set, whatever the client's fields are. *)
Theorem Go_sends_no_header c uri w :
  ∃ new, sent (Go c uri w).2 = sent w ++ new
         ∧ Forall (λ r, Request_Method r = "GET" ∧ Request_Header r = []) new.
Proof.
  unfold Go. unfold_M. cbn.
  assert (Hnone : ∃ new, sent w = sent w ++ new
                   ∧ Forall (λ r, Request_Method r = "GET" ∧ Request_Header r = []) new)
    by (exists []; by rewrite app_nil_r).
  assert (Hone : ∀ u : URL,
            ∃ new, sent w ++ [{| Request_Method := "GET"; Request_URL := u;
                                 Request_Header := [] |}] = sent w ++ new
                   ∧ Forall (λ r, Request_Method r = "GET" ∧ Request_Header r = []) new)
    by (intros u; eexists; split; [done|]; by repeat constructor).
  destruct (caches w !! Cache c) as [s|] eqn:Hs; cbn; [|exact Hnone].
  destruct (cache_get (clock w) (URL_String uri) s) as [data found].
  destruct (negb found || negb (UseCache c)).
  - unfold http_NewRequest.
    destruct (Debug c); cbn;
      (destruct (url_Parse (URL_String uri)) as [u|err]; cbn; [|exact Hnone]);
      (match goal with
       | |- context [reply_result ?r] => destruct (reply_result r) as [resp|err]; cbn
       end; [|exact (Hone u)]);
      (destruct (negb (StatusCode resp =? 200)); cbn; [exact (Hone u)|]);
      (destruct (ioutil_ReadAll (Response_Body resp)) as [body [err|]]; cbn;
         [exact (Hone u)|]);
      rewrite Hs; cbn; exact (Hone u).
  - destruct (Debug c); cbn; destruct data; exact Hnone.
Qed.
End GoFacts.

(** ** The client operations *)

Section ClientFacts.
Context `{Runtime} `{StringsPkg}.
Implicit Types (c : Client) (w : World).

(** Once the search has returned its candidates, [FindShow] is the two
    loops. *)
Lemma FindShow_of_GetShow c showname w candidates w' :
  GetShow c showname w = (Done (candidates, None), w') →
  FindShow c showname w =
  (Done match FindShow_loops (Region c) showname candidates with
        | Some show => (show, None)
        | None => (zeroShow, Some NotFound)
        end, w').
Proof.
  intros Hg. unfold FindShow, mbind, M_bind. rewrite Hg.
  by destruct (FindShow_loops (Region c) showname candidates).
Qed.

(** C5.  Given the candidates of the search, [FindShow] either fails with
    the not-found error or returns the show of a candidate that one of the
    passes accepts; it fails exactly when no candidate is accepted. *)
Theorem FindShow_NotFound_iff c showname w candidates w' :
  GetShow c showname w = (Done (candidates, None), w') →
  (FindShow c showname w = (Done (zeroShow, Some NotFound), w')
   ∨ ∃ cand, cand ∈ candidates ∧ accepted (Region c) showname cand = true
             ∧ FindShow c showname w = (Done (Candidate_Show cand, None), w'))
  ∧ (FindShow c showname w = (Done (zeroShow, Some NotFound), w')
     ↔ ∀ cand, cand ∈ candidates → accepted (Region c) showname cand = false).
Proof.
  intros Hg. rewrite (FindShow_of_GetShow _ _ _ _ _ Hg).
  destruct (FindShow_loops (Region c) showname candidates) as [show|] eqn:Hl.
  - pose proof (FindShow_loops_Some _ _ _ _ Hl) as (cand & Hin & -> & Hacc). split.
    + right. by exists cand.
    + split; [done|]. intros Hall. by rewrite (Hall cand Hin) in Hacc.
  - split; [by left|]. split; [|done]. intros _. by apply FindShow_loops_None.
Qed.

(** C6.  With no file at the cache-file path, [NewClient] returns a client
    and no error, and the client's cache is empty.  With a file there that
    does not decode, it returns the decoder's error and no client. *)
Theorem NewClient_cache_file cachefile w :
  (files w !! cachefile = None →
   ∃ c w' s, NewClient cachefile w = (Done (Some c, None), w')
             ∧ caches w' !! Cache c = Some s ∧ entries s = ∅)
  ∧ (∀ content err,
       files w !! cachefile = Some content →
       gob_Decode content = inr err →
       ∃ w', NewClient cachefile w = (Done (None, Some err), w')).
Proof.
  split.
  - intros Hf. unfold NewClient, Cache_New, os_Stat, mbind, mret, M_bind, M_ret.
    cbn. rewrite Hf. cbn. eexists _, _, _. split; [reflexivity|]. cbn.
    split; [by apply list_lookup_middle | done].
  - intros content err Hf Hdec.
    unfold NewClient, Cache_New, os_Stat, Cache_LoadFile, mbind, mret, M_bind, M_ret.
    cbn. rewrite Hf. cbn. rewrite list_lookup_middle by done. rewrite Hf, Hdec. cbn.
    eexists. reflexivity.
Qed.

(** C7.  When the base URI with the route of the show parses, [GetEpisodes]
    calls [Go] once, on that URI, and does nothing else to the world; the
    episodes are what the decoder makes of the body, in its order, and a
    decoder error is returned with no episodes. *)
Theorem GetEpisodes_one_fetch c showID w uri :
  url_Parse (BaseURI c +:+ "/shows/" +:+ fmt_d showID +:+ "/episodes") = inl uri →
  fetches (GetEpisodes c showID w).2 = fetches w ++ [URL_String uri]
  ∧ (GetEpisodes c showID w).2 = (Go c uri w).2
  ∧ (∀ body episodes,
       (Go c uri w).1 = Done (body, None) →
       json_Unmarshal_Episodes body = inl episodes →
       (GetEpisodes c showID w).1 = Done (episodes, None))
  ∧ (∀ body err,
       (Go c uri w).1 = Done (body, None) →
       json_Unmarshal_Episodes body = inr err →
       (GetEpisodes c showID w).1 = Done ([], Some err)).
Proof.
  intros Hp.
  assert (Hw : (GetEpisodes c showID w).2 = (Go c uri w).2).
  { unfold GetEpisodes. rewrite Hp. unfold mbind, M_bind.
    destruct (Go c uri w) as [[[body [err|]]| |] w1]; cbn; try done.
    by destruct (json_Unmarshal_Episodes body). }
  split; [by rewrite Hw, Go_fetches|]. split; [done|].
  split; intros body ? Hgo Hdec; unfold GetEpisodes; rewrite Hp; unfold mbind, M_bind;
    destruct (Go c uri w) as [out w1]; cbn in Hgo; subst out; cbn; by rewrite Hdec.
Qed.
End ClientFacts.

(** ** The theorems at work on the small runtime *)

(** A cached body is returned with the flag set; with the flag clear the
    server is asked and its body replaces the cached one. *)
Lemma Go_cache_policy_witness :
  (∃ w', @Go textUrl (testRT 200 "fresh" [] []) (testClient true "") (theURL "http://h/x")
             (warmWorld "http://h/x" "cached") = (Done (bytes "cached", None), w')
         ∧ sent w' = [] ∧ caches w' = caches (warmWorld "http://h/x" "cached"))
  ∧ (∃ w' s', @Go textUrl (testRT 200 "fresh" [] []) (testClient false "") (theURL "http://h/x")
                  (warmWorld "http://h/x" "cached") = (Done (bytes "fresh", None), w')
              ∧ caches w' = [s']
              ∧ entries s' !! "http://h/x" =
                Some {| entry_value := ObjBytes (bytes "fresh"); entry_storedAt := 15;
                        entry_ttl := week |}).
Proof.
  split.
  - apply (proj1 (@Go_cache_policy textUrl (testRT 200 "fresh" [] []) (testClient true "")
                    "http://h/x" (warmWorld "http://h/x" "cached")
                    (cache_set 0 "http://h/x" (ObjBytes (bytes "cached")) 0
                               (cache_New week hour))
                    eq_refl) (bytes "cached")).
    + reflexivity.
    + vm_compute; reflexivity.
  - destruct (proj2 (@Go_cache_policy textUrl (testRT 200 "fresh" [] [])
                       (testClient false "") (theURL "http://h/x")
                       (warmWorld "http://h/x" "cached")
                       (cache_set 0 "http://h/x" (ObjBytes (bytes "cached")) 0
                                  (cache_New week hour))
                       eq_refl)
                    {| Request_Method := "GET"; Request_URL := theURL "http://h/x";
                       Request_Header := [] |} eq_refl eq_refl) as [_ Hfresh].
    destruct (Hfresh {| StatusCode := 200; Response_Body := BodyOK (bytes "fresh") |}
                     (bytes "fresh") eq_refl eq_refl eq_refl)
      as (w' & s' & Hgo & Hcs & _ & _ & Hentry).
    exists w', s'. split; [exact Hgo|]. split; [exact Hcs | exact Hentry].
Defined.

Lemma Go_status_error_witness :
  ∃ w', @Go textUrl (testRT 404 "" [] []) (testClient true "") (theURL "http://h/x") freshWorld
        = (Done ([], Some (errors_New "Request failed: Not Found")), w').
Proof.
  apply (@Go_status_error textUrl (testRT 404 "" [] []) (testClient true "") (theURL "http://h/x")
           freshWorld (cache_New week hour)
           {| Request_Method := "GET"; Request_URL := theURL "http://h/x"; Request_Header := [] |}
           {| StatusCode := 404; Response_Body := BodyOK [] |}).
  - reflexivity.
  - left. vm_compute; reflexivity.
  - reflexivity.
  - reflexivity.
  - vm_compute; discriminate.
Defined.

(** A failed refresh leaves the cached entry where it was. *)
Lemma Go_error_keeps_cache_witness :
  caches (@Go textUrl (testRT 500 "" [] []) (testClient false "") (theURL "http://h/x")
              (warmWorld "http://h/x" "cached")).2
  = caches (warmWorld "http://h/x" "cached").
Proof.
  destruct (@Go_error_keeps_cache textUrl (testRT 500 "" [] []) (testClient false "")
              (theURL "http://h/x") (warmWorld "http://h/x" "cached") _ _
              (surjective_pairing _)) as [Herr _].
  destruct (Herr [] (errors_New "Request failed: Internal Server Error")) as [_ Hc].
  - vm_compute; reflexivity.
  - exact Hc.
Defined.

(** After one fetch into an empty cache, the next fetch returns. *)
Lemma Go_never_panics_witness :
  ∃ r, (@Go textUrl (testRT 200 "fresh" [] []) (testClient true "") (theURL "http://h/x")
            (@Go textUrl (testRT 200 "fresh" [] []) (testClient true "") (theURL "http://h/x")
                 freshWorld).2).1 = Done r.
Proof.
  apply (proj1 (@Go_never_panics textUrl (testRT 200 "fresh" [] []) 0 freshWorld
                  (cache_New week hour) _ (testClient true "") (theURL "http://h/x")
                  eq_refl eq_refl
                  (fetched_Go 0 freshWorld (testClient true "") (theURL "http://h/x") freshWorld
                              (fetched_start 0 freshWorld) eq_refl)
                  eq_refl)).
Defined.

Lemma FindShow_NotFound_iff_witness :
  @FindShow textUrl (testRT 200 "[]" [mkCand "Fringe" "US"] []) asciiStrings (testClient true "")
            "NoSuchShow" freshWorld
  = (Done (zeroShow, Some NotFound),
     (@GetShow textUrl (testRT 200 "[]" [mkCand "Fringe" "US"] []) (testClient true "")
               "NoSuchShow" freshWorld).2).
Proof.
  apply (proj2 (@FindShow_NotFound_iff textUrl (testRT 200 "[]" [mkCand "Fringe" "US"] []) asciiStrings
                  (testClient true "") "NoSuchShow" freshWorld [mkCand "Fringe" "US"] _
                  (surjective_pairing _))).
  intros cand Hin. apply list_elem_of_singleton in Hin. rewrite Hin. reflexivity.
Defined.

Lemma NewClient_cache_file_witness :
  (∃ c w' s, @NewClient textUrl (testRT 200 "" [] []) "tvmaze.cache" freshWorld
             = (Done (Some c, None), w')
             ∧ caches w' !! Cache c = Some s ∧ entries s = ∅)
  ∧ (∃ w', @NewClient textUrl (testRT 200 "" [] []) "tvmaze.cache"
                      (diskWorld "tvmaze.cache" "garbage")
           = (Done (None, Some (LibError "gob" "unexpected EOF")), w')).
Proof.
  split.
  - apply (proj1 (@NewClient_cache_file textUrl (testRT 200 "" [] []) "tvmaze.cache"
                    freshWorld)).
    vm_compute; reflexivity.
  - apply (proj2 (@NewClient_cache_file textUrl (testRT 200 "" [] []) "tvmaze.cache"
                    (diskWorld "tvmaze.cache" "garbage"))
                 (bytes "garbage") (LibError "gob" "unexpected EOF")).
    + vm_compute; reflexivity.
    + reflexivity.
Defined.

Lemma GetEpisodes_one_fetch_witness :
  fetches (@GetEpisodes textUrl
             (testRT 200 "[]" [] [mkEpisode 1 1 1 "Pilot"; mkEpisode 2 1 2 "Two"])
             (testClient true "") 82 freshWorld).2
  = ["http://api.tvmaze.com/shows/82/episodes"]
  ∧ (@GetEpisodes textUrl
       (testRT 200 "[]" [] [mkEpisode 1 1 1 "Pilot"; mkEpisode 2 1 2 "Two"])
       (testClient true "") 82 freshWorld).1
    = Done ([mkEpisode 1 1 1 "Pilot"; mkEpisode 2 1 2 "Two"], None).
Proof.
  destruct (@GetEpisodes_one_fetch textUrl
              (testRT 200 "[]" [] [mkEpisode 1 1 1 "Pilot"; mkEpisode 2 1 2 "Two"])
              (testClient true "") 82 freshWorld
              (theURL "http://api.tvmaze.com/shows/82/episodes") eq_refl)
    as (Hfetch & _ & Hok & _).
  split; [exact Hfetch|].
  apply (Hok (bytes "[]")); [vm_compute; reflexivity | reflexivity].
Defined.

(** ** More about the fetch layer *)

Section GoPaths.
Context `{Runtime}.
Implicit Types (c : Client) (uri : URL) (w : World) (s : CacheStore).

Lemma Go_on_network c uri w s :
  caches w !! Cache c = Some s →
  negb (cache_get (clock w) (URL_String uri) s).2 || negb (UseCache c) = true →
  Go c uri w = Go_network c uri s w.
Proof.
  intros Hs Hpath. unfold Go, Go_network, Go_entered. unfold_M. cbn. rewrite Hs.
  destruct (cache_get (clock w) (URL_String uri) s) as [data found]. cbn in Hpath.
  rewrite Hpath.
  destruct (Debug c); cbn;
    (destruct (http_NewRequest "GET" (URL_String uri)) as [request|err]; cbn; [|done]);
    (destruct (reply_result (http_Do (sent w) request)) as [resp|err]; cbn; [|done]);
    (destruct (negb (StatusCode resp =? 200)); cbn; [done|]);
    (destruct (Response_Body resp) as [body|partial err]; cbn; [|done]);
    by rewrite Hs.
Qed.

Lemma Go_on_cache c uri w s data :
  caches w !! Cache c = Some s →
  UseCache c = true →
  cache_get (clock w) (URL_String uri) s = (data, true) →
  Go c uri w =
  (match data with
   | ObjBytes b => Done (b, None)
   | _ => Panic "interface conversion: interface {} is not []uint8"
   end, Go_entered c uri "cache hit: " w).
Proof.
  intros Hs Hu Hg. unfold Go, Go_entered. unfold_M. cbn. rewrite Hs, Hg, Hu. cbn.
  destruct (Debug c); cbn; by destruct data.
Qed.

Lemma Go_entered_fields c uri line w :
  clock (Go_entered c uri line w) = clock w
  ∧ caches (Go_entered c uri line w) = caches w
  ∧ files (Go_entered c uri line w) = files w
  ∧ sent (Go_entered c uri line w) = sent w
  ∧ fetches (Go_entered c uri line w) = fetches w ++ [URL_String uri]
  ∧ printed (Go_entered c uri line w) =
    printed w ++ (if Debug c then [line +:+ URL_String uri +:+ newline] else []).
Proof.
  unfold Go_entered. destruct (Debug c); cbn; by rewrite ?app_nil_r.
Qed.
End GoPaths.

Section GoMore.
Context `{Runtime}.
Implicit Types (c : Client) (uri : URL) (w : World) (s : CacheStore).

(** X1.  Without a live entry for the URI (none, or one past its time) [Go]
    asks the server even when the use-cache flag is set; on a 200 response
    whose body is read in full it returns the body, has sent exactly that
    one request, and stores the body under the URI at the time the answer
    arrived. *)
Theorem Go_miss_fetches c uri w s request resp body :
  caches w !! Cache c = Some s →
  (cache_get (clock w) (URL_String uri) s).2 = false →
  http_NewRequest "GET" (URL_String uri) = inl request →
  reply_result (http_Do (sent w) request) = inl resp →
  StatusCode resp = 200 →
  Response_Body resp = BodyOK body →
  ∃ w', Go c uri w = (Done (body, None), w')
        ∧ sent w' = sent w ++ [request]
        ∧ clock w' = clock w + reply_elapsed (http_Do (sent w) request)
        ∧ caches w' = <[Cache c := cache_set (clock w') (URL_String uri)
                                             (ObjBytes body) 0 s]> (caches w).
Proof.
  intros Hs Hmiss Hreq Hresp Hcode Hbody.
  rewrite (Go_on_network c uri w s Hs) by (by rewrite Hmiss).
  unfold Go_network. rewrite Hreq, Hresp, Hcode, Hbody. cbn.
  eexists. split; [reflexivity|]. cbn. done.
Qed.

(** X2.  When the request cannot be built, [Go] returns that error and no
    bytes, and nothing is sent and nothing is cached. *)
Theorem Go_request_error c uri w s err :
  caches w !! Cache c = Some s →
  (cache_get (clock w) (URL_String uri) s).2 = false ∨ UseCache c = false →
  http_NewRequest "GET" (URL_String uri) = inr err →
  ∃ w', Go c uri w = (Done ([], Some err), w')
        ∧ sent w' = sent w ∧ caches w' = caches w ∧ clock w' = clock w.
Proof.
  intros Hs Hpath Hreq.
  rewrite (Go_on_network c uri w s Hs)
    by (destruct Hpath as [-> | ->]; [done | apply orb_true_r]).
  unfold Go_network. rewrite Hreq. eexists. split; [reflexivity|].
  by destruct (Go_entered_fields c uri "cache miss: " w) as (-> & -> & _ & -> & _).
Qed.

(** X3.  When the transport fails, [Go] returns the transport's error and
    no bytes; the request has been sent, and the cache is as before. *)
Theorem Go_transport_error c uri w s request err :
  caches w !! Cache c = Some s →
  (cache_get (clock w) (URL_String uri) s).2 = false ∨ UseCache c = false →
  http_NewRequest "GET" (URL_String uri) = inl request →
  reply_result (http_Do (sent w) request) = inr err →
  ∃ w', Go c uri w = (Done ([], Some err), w')
        ∧ sent w' = sent w ++ [request] ∧ caches w' = caches w.
Proof.
  intros Hs Hpath Hreq Hresp.
  rewrite (Go_on_network c uri w s Hs)
    by (destruct Hpath as [-> | ->]; [done | apply orb_true_r]).
  unfold Go_network. rewrite Hreq, Hresp. eexists. split; [reflexivity|]. cbn.
  destruct (Go_entered_fields c uri "cache miss: " w) as (_ & Hc & _ & Hsn & _).
  by rewrite ?Hc, ?Hsn.
Qed.

(** X4.  When a 200 response breaks off while its body is read, [Go]
    returns the read error and no bytes: what was read so far is neither
    returned nor cached. *)
Theorem Go_body_error c uri w s request resp partial err :
  caches w !! Cache c = Some s →
  (cache_get (clock w) (URL_String uri) s).2 = false ∨ UseCache c = false →
  http_NewRequest "GET" (URL_String uri) = inl request →
  reply_result (http_Do (sent w) request) = inl resp →
  StatusCode resp = 200 →
  Response_Body resp = BodyErr partial err →
  ∃ w', Go c uri w = (Done ([], Some err), w')
        ∧ sent w' = sent w ++ [request] ∧ caches w' = caches w.
Proof.
  intros Hs Hpath Hreq Hresp Hcode Hbody.
  rewrite (Go_on_network c uri w s Hs)
    by (destruct Hpath as [-> | ->]; [done | apply orb_true_r]).
  unfold Go_network. rewrite Hreq, Hresp, Hcode, Hbody. cbn.
  eexists. split; [reflexivity|]. cbn.
  destruct (Go_entered_fields c uri "cache miss: " w) as (_ & Hc & _ & Hsn & _).
  by rewrite ?Hc, ?Hsn.
Qed.

(** X5.  On a client whose [Cache] points to no store, [Go] panics at the
    cache lookup, before anything is sent. *)
Theorem Go_nil_cache_panics c uri w :
  caches w !! Cache c = None →
  ∃ msg w', Go c uri w = (Panic msg, w') ∧ sent w' = sent w ∧ caches w' = caches w.
Proof.
  intros Hs. unfold Go. unfold_M. cbn. rewrite Hs. by eexists _, _.
Qed.

(** X6.  With the use-cache flag set, a live entry that is not a byte
    sequence makes [Go] panic at its type assertion; nothing is sent and
    the entry stays. *)
Theorem Go_foreign_entry_panics c uri w s x :
  caches w !! Cache c = Some s →
  UseCache c = true →
  cache_get (clock w) (URL_String uri) s = (x, true) →
  is_bytes x = false →
  ∃ msg w', Go c uri w = (Panic msg, w') ∧ sent w' = sent w ∧ caches w' = caches w.
Proof.
  intros Hs Hu Hg Hx. rewrite (Go_on_cache c uri w s x Hs Hu Hg).
  destruct (Go_entered_fields c uri "cache hit: " w) as (_ & Hc & _ & Hsent & _).
  destruct x; try done; by eexists _, _.
Qed.

(** X7.  [Go] writes at most the entry of its own URI in its own store:
    the other stores, the other keys of its store, the store's default TTL
    and the files are as before. *)
Theorem Go_frame c uri w s :
  caches w !! Cache c = Some s →
  files (Go c uri w).2 = files w
  ∧ (∀ p, p ≠ Cache c → caches (Go c uri w).2 !! p = caches w !! p)
  ∧ ∃ s', caches (Go c uri w).2 !! Cache c = Some s'
          ∧ defaultTTL s' = defaultTTL s
          ∧ ∀ k, k ≠ URL_String uri → entries s' !! k = entries s !! k.
Proof.
  intros Hs.
  assert (Hkeep : ∀ (out : Outcome (list byte * option error)) w1,
            files w1 = files w → caches w1 = caches w →
            files (out, w1).2 = files w
            ∧ (∀ p, p ≠ Cache c → caches (out, w1).2 !! p = caches w !! p)
            ∧ ∃ s', caches (out, w1).2 !! Cache c = Some s'
                    ∧ defaultTTL s' = defaultTTL s
                    ∧ ∀ k, k ≠ URL_String uri → entries s' !! k = entries s !! k).
  { intros out w1 Hf Hc. cbn. rewrite Hf, Hc. split; [done|]. split; [done|]. by exists s. }
  destruct (negb (cache_get (clock w) (URL_String uri) s).2 || negb (UseCache c)) eqn:Hpath.
  - rewrite (Go_on_network c uri w s Hs Hpath). unfold Go_network.
    destruct (Go_entered_fields c uri "cache miss: " w) as (_ & Hc & Hf & _).
    destruct (http_NewRequest "GET" (URL_String uri)) as [request|err];
      [|by apply Hkeep].
    destruct (reply_result (http_Do (sent w) request)) as [resp|err]; [|by apply Hkeep].
    destruct (negb (StatusCode resp =? 200)); [by apply Hkeep|].
    destruct (Response_Body resp) as [body|partial err]; [|by apply Hkeep].
    cbn. split; [done|]. split.
    + intros p Hp. by rewrite list_lookup_insert_ne.
    + eexists. split; [apply list_lookup_insert_eq; by eapply lookup_lt_Some|].
      split; [done|]. intros k Hk. by apply cache_set_other.
  - apply orb_false_elim in Hpath as [Hfound Hu].
    apply negb_false_iff in Hfound, Hu.
    destruct (cache_get (clock w) (URL_String uri) s) as [data found] eqn:Hg.
    cbn in Hfound. subst found.
    rewrite (Go_on_cache c uri w s data Hs Hu Hg).
    destruct (Go_entered_fields c uri "cache hit: " w) as (_ & Hc & Hf & _).
    by apply Hkeep.
Qed.

(** X8.  With [Debug] clear [Go] prints nothing; with [Debug] set it prints
    one line, "cache hit: " and the URI when it answers from the cache and
    "cache miss: " and the URI when it goes to the network. *)
Theorem Go_debug_output c uri w s :
  caches w !! Cache c = Some s →
  printed (Go c uri w).2 =
  printed w ++
  (if Debug c then
     [(if (cache_get (clock w) (URL_String uri) s).2 && UseCache c
       then "cache hit: " else "cache miss: ") +:+ URL_String uri +:+ newline]
   else []).
Proof.
  intros Hs.
  destruct (negb (cache_get (clock w) (URL_String uri) s).2 || negb (UseCache c)) eqn:Hpath.
  - rewrite (Go_on_network c uri w s Hs Hpath). unfold Go_network.
    rewrite <- negb_andb in Hpath. apply negb_true_iff in Hpath. rewrite Hpath.
    destruct (Go_entered_fields c uri "cache miss: " w) as (_ & _ & _ & _ & _ & Hp).
    destruct (http_NewRequest "GET" (URL_String uri)) as [request|err]; [|done].
    destruct (reply_result (http_Do (sent w) request)) as [resp|err]; [|done].
    destruct (negb (StatusCode resp =? 200)); [done|].
    by destruct (Response_Body resp).
  - rewrite <- negb_andb in Hpath. apply negb_false_iff in Hpath. rewrite Hpath.
    apply andb_true_iff in Hpath as [Hfound Hu].
    destruct (cache_get (clock w) (URL_String uri) s) as [data found] eqn:Hg.
    cbn in Hfound. subst found.
    rewrite (Go_on_cache c uri w s data Hs Hu Hg).
    by destruct (Go_entered_fields c uri "cache hit: " w) as (_ & _ & _ & _ & _ & Hp).
Qed.
End GoMore.

Section GoRepeat.
Context `{Runtime} `{StringsPkg}.
Implicit Types (c : Client) (uri : URL) (w : World) (s : CacheStore).

(** A body returned by [Go] is afterwards a live entry of the store, as long
    as the default TTL is not negative. *)
Lemma Go_success_live c uri w s body w1 :
  caches w !! Cache c = Some s →
  0 ≤ defaultTTL s →
  Go c uri w = (Done (body, None), w1) →
  ∃ s1, caches w1 !! Cache c = Some s1
        ∧ defaultTTL s1 = defaultTTL s
        ∧ cache_get (clock w1) (URL_String uri) s1 = (ObjBytes body, true).
Proof.
  intros Hs Httl.
  destruct (negb (cache_get (clock w) (URL_String uri) s).2 || negb (UseCache c)) eqn:Hpath.
  - rewrite (Go_on_network c uri w s Hs Hpath). unfold Go_network.
    destruct (http_NewRequest "GET" (URL_String uri)) as [request|err]; [|done].
    destruct (reply_result (http_Do (sent w) request)) as [resp|err]; [|done].
    destruct (negb (StatusCode resp =? 200)); [done|].
    destruct (Response_Body resp) as [body'|partial err]; [|done].
    intros [= <- <-]. cbn. eexists.
    split; [apply list_lookup_insert_eq; by eapply lookup_lt_Some|].
    split; [done|]. unfold cache_get. rewrite cache_set_entry. unfold entry_live. cbn.
    by rewrite (proj2 (Z.leb_le _ _)) by lia.
  - apply orb_false_elim in Hpath as [Hfound Hu].
    apply negb_false_iff in Hfound, Hu.
    destruct (cache_get (clock w) (URL_String uri) s) as [data found] eqn:Hg.
    cbn in Hfound. subst found.
    rewrite (Go_on_cache c uri w s data Hs Hu Hg).
    destruct (Go_entered_fields c uri "cache hit: " w) as (Hclock & Hc & _).
    destruct data; try done. intros [= <- <-]. exists s.
    by rewrite Hc, Hclock.
Qed.

(** So a second call with the use-cache flag set answers from the cache. *)
Lemma Go_again c c' uri w s body w1 :
  caches w !! Cache c = Some s →
  0 ≤ defaultTTL s →
  Go c uri w = (Done (body, None), w1) →
  Cache c' = Cache c →
  UseCache c' = true →
  Go c' uri w1 = (Done (body, None), Go_entered c' uri "cache hit: " w1).
Proof.
  intros Hs Httl Hgo Hc Hu.
  destruct (Go_success_live c uri w s body w1 Hs Httl Hgo) as (s1 & Hs1 & _ & Hg).
  rewrite <- Hc in Hs1. by rewrite (Go_on_cache c' uri w1 s1 _ Hs1 Hu Hg).
Qed.

(** X9.  Once [Go] has returned a body for a URI, a call for the same URI
    that follows at once on a client sharing the cache and having the
    use-cache flag set returns the same body without sending anything;
    the default TTL must not be negative. *)
Theorem Go_repeat_hits_cache c c' uri w s body w1 :
  caches w !! Cache c = Some s →
  0 ≤ defaultTTL s →
  Go c uri w = (Done (body, None), w1) →
  Cache c' = Cache c →
  UseCache c' = true →
  ∃ w2, Go c' uri w1 = (Done (body, None), w2)
        ∧ sent w2 = sent w1 ∧ caches w2 = caches w1 ∧ clock w2 = clock w1.
Proof.
  intros Hs Httl Hgo Hc Hu. rewrite (Go_again c c' uri w s body w1 Hs Httl Hgo Hc Hu).
  eexists. split; [reflexivity|].
  by destruct (Go_entered_fields c' uri "cache hit: " w1) as (-> & -> & _ & -> & _).
Qed.

(** What a [FindShow] that returned a show went through. *)
Lemma FindShow_inv c showname w show w1 :
  FindShow c showname w = (Done (show, None), w1) →
  ∃ uri body candidates,
    url_Parse (BaseURI c +:+ "/search/shows") = inl uri
    ∧ Go c (URL_setRawQuery uri (url_Values_Encode [("q", showname)])) w
      = (Done (body, None), w1)
    ∧ json_Unmarshal_Candidates body = inl candidates
    ∧ FindShow_loops (Region c) showname candidates = Some show.
Proof.
  unfold FindShow, GetShow, mbind, M_bind, mret, M_ret, log_Fatal.
  destruct (url_Parse (BaseURI c +:+ "/search/shows")) as [uri|err]; [|done].
  destruct (Go c (URL_setRawQuery uri (url_Values_Encode [("q", showname)])) w)
    as [[[body [err|]]| |] w0] eqn:Hgo; try done.
  destruct (json_Unmarshal_Candidates body) as [candidates|err] eqn:Hdec; [|done].
  destruct (FindShow_loops (Region c) showname candidates) as [show'|] eqn:Hl; [|done].
  intros [= <- <-]. by exists uri, body, candidates.
Qed.

(** X10.  With the use-cache flag set and a default TTL that is not
    negative, a search that succeeded gives the same show when it is
    repeated at once, and the repeat sends nothing. *)
Theorem FindShow_repeat_hits_cache c showname w s show w1 :
  caches w !! Cache c = Some s →
  0 ≤ defaultTTL s →
  UseCache c = true →
  FindShow c showname w = (Done (show, None), w1) →
  ∃ w2, FindShow c showname w1 = (Done (show, None), w2) ∧ sent w2 = sent w1.
Proof.
  intros Hs Httl Hu Hfs.
  destruct (FindShow_inv c showname w show w1 Hfs)
    as (uri & body & candidates & Hp & Hgo & Hdec & Hl).
  pose proof (Go_again c c _ w s body w1 Hs Httl Hgo eq_refl Hu) as Hgo2.
  unfold FindShow, GetShow, mbind, M_bind, mret, M_ret. rewrite Hp, Hgo2, Hdec, Hl.
  eexists. split; [reflexivity|].
  by destruct (Go_entered_fields c (URL_setRawQuery uri (url_Values_Encode [("q", showname)]))
                 "cache hit: " w1) as (_ & _ & _ & -> & _).
Qed.
End GoRepeat.

(** ** More about the client operations *)

Section ClientMore.
Context `{Runtime} `{StringsPkg}.
Implicit Types (c : Client) (w : World).

(** X11.  When the base URI with the episode route does not parse,
    [GetEpisodes] returns the parse error and no episodes, and the world is
    untouched: no fetch, no request.  That is the only way it comes back
    without a fetch. *)
Theorem GetEpisodes_parse_error c showID w :
  (∀ err, url_Parse (BaseURI c +:+ "/shows/" +:+ fmt_d showID +:+ "/episodes") = inr err →
          GetEpisodes c showID w = (Done ([], Some err), w))
  ∧ (fetches (GetEpisodes c showID w).2 = fetches w →
     ∃ err, url_Parse (BaseURI c +:+ "/shows/" +:+ fmt_d showID +:+ "/episodes") = inr err).
Proof.
  split.
  - intros err Hp. unfold GetEpisodes. by rewrite Hp.
  - destruct (url_Parse (BaseURI c +:+ "/shows/" +:+ fmt_d showID +:+ "/episodes"))
      as [uri|err] eqn:Hp; [|by exists err].
    intros Hsame. exfalso.
    assert (Hw : (GetEpisodes c showID w).2 = (Go c uri w).2).
    { unfold GetEpisodes. rewrite Hp. unfold mbind, M_bind.
      destruct (Go c uri w) as [[[body [err|]]| |] w1]; cbn; try done.
      by destruct (json_Unmarshal_Episodes body). }
    rewrite Hw, Go_fetches in Hsame.
    apply (f_equal length) in Hsame. rewrite length_app in Hsame. cbn in Hsame. lia.
Qed.

(** X12.  When the base URI with the search route does not parse, [GetShow]
    does not return: it logs the parse error and the process exits with
    status 1, and so does [FindShow]; nothing is fetched or sent. *)
Theorem GetShow_parse_error_exits c showname w err :
  url_Parse (BaseURI c +:+ "/search/shows") = inr err →
  ∃ w', GetShow c showname w = (Exit 1, w')
        ∧ FindShow c showname w = (Exit 1, w')
        ∧ printed w' = printed w ++ [error_Error err]
        ∧ fetches w' = fetches w ∧ sent w' = sent w ∧ caches w' = caches w.
Proof.
  intros Hp. unfold FindShow, GetShow, mbind, M_bind, log_Fatal. rewrite Hp.
  by eexists.
Qed.

(** X13.  When the base URI with the search route parses, [GetShow] calls
    [Go] once, on that URL with the query [q=show] as the encoder writes it,
    and does nothing else to the world.  A fetch error comes back with no
    candidates; otherwise the candidates are what the decoder makes of the
    body, in its order, and a decoder error comes back with no candidates. *)
Theorem GetShow_one_fetch c showname w uri :
  url_Parse (BaseURI c +:+ "/search/shows") = inl uri →
  let target := URL_setRawQuery uri (url_Values_Encode [("q", showname)]) in
  fetches (GetShow c showname w).2 = fetches w ++ [URL_String target]
  ∧ (GetShow c showname w).2 = (Go c target w).2
  ∧ (∀ data err, (Go c target w).1 = Done (data, Some err) →
                 (GetShow c showname w).1 = Done ([], Some err))
  ∧ (∀ body candidates,
       (Go c target w).1 = Done (body, None) →
       json_Unmarshal_Candidates body = inl candidates →
       (GetShow c showname w).1 = Done (candidates, None))
  ∧ (∀ body err,
       (Go c target w).1 = Done (body, None) →
       json_Unmarshal_Candidates body = inr err →
       (GetShow c showname w).1 = Done ([], Some err)).
Proof.
  intros Hp target.
  assert (Hw : (GetShow c showname w).2 = (Go c target w).2).
  { unfold GetShow. rewrite Hp. unfold mbind, M_bind. fold target.
    destruct (Go c target w) as [[[body [err|]]| |] w1]; cbn; try done.
    by destruct (json_Unmarshal_Candidates body). }
  split; [by rewrite Hw, Go_fetches|]. split; [done|].
  repeat split; intros ? ? Hgo; try intros Hdec;
    unfold GetShow; rewrite Hp; unfold mbind, M_bind; fold target;
    destruct (Go c target w) as [out w1]; cbn in Hgo; subst out; cbn;
    by rewrite ?Hdec.
Qed.

(** X14.  [FindShow] adds nothing to what [GetShow] does to the world, and
    hands on its failure: an error of [GetShow] comes back with the zero
    [Show], a panic or an exit ends [FindShow] the same way. *)
Theorem FindShow_hands_on_failure c showname w :
  (FindShow c showname w).2 = (GetShow c showname w).2
  ∧ (∀ candidates err, (GetShow c showname w).1 = Done (candidates, Some err) →
                       (FindShow c showname w).1 = Done (zeroShow, Some err))
  ∧ (∀ msg, (GetShow c showname w).1 = Panic msg → (FindShow c showname w).1 = Panic msg)
  ∧ (∀ code, (GetShow c showname w).1 = Exit code → (FindShow c showname w).1 = Exit code).
Proof.
  unfold FindShow, mbind, M_bind.
  destruct (GetShow c showname w) as [[[candidates [err|]]| |] w1];
    cbn -[FindShow_loops].
  - repeat split; try done. by intros ? ? [= _ <-].
  - destruct (FindShow_loops (Region c) showname candidates); by repeat split.
  - repeat split; try done. by intros ? [= <-].
  - repeat split; try done. by intros ? [= <-].
Qed.

(** X15.  When [Go] fails, [GetEpisodes] returns its error and no episodes
    without decoding anything; when [Go] panics, so does [GetEpisodes]. *)
Theorem GetEpisodes_fetch_error c showID w uri :
  url_Parse (BaseURI c +:+ "/shows/" +:+ fmt_d showID +:+ "/episodes") = inl uri →
  (∀ data err, (Go c uri w).1 = Done (data, Some err) →
               (GetEpisodes c showID w).1 = Done ([], Some err))
  ∧ (∀ msg, (Go c uri w).1 = Panic msg → (GetEpisodes c showID w).1 = Panic msg).
Proof.
  intros Hp. unfold GetEpisodes. rewrite Hp. unfold mbind, M_bind.
  destruct (Go c uri w) as [[[body [err|]]| |] w1]; cbn; split; try done.
  - by intros ? ? [= _ <-].
  - by intros ? [= <-].
Qed.

(** X16.  A client returned by [NewClient] has the public tvmaze host as
    base URI, no region, debug output off, a timeout of 180 seconds and the
    use-cache flag clear.  Its cache is a store of its own with a default
    TTL of one week; the stores that existed stay as they are, and nothing
    is sent or written to disk. *)
Theorem NewClient_defaults cachefile w c w' :
  NewClient cachefile w = (Done (Some c, None), w') →
  BaseURI c = "http://api.tvmaze.com" ∧ Region c = "" ∧ Debug c = false
  ∧ UseCache c = false ∧ CacheFile c = cachefile ∧ Timeout c = 180 * time_Second
  ∧ Cache c = length (caches w)
  ∧ (∃ s, caches w' = caches w ++ [s] ∧ defaultTTL s = 7 * 24 * 60 * time_Minute)
  ∧ sent w' = sent w ∧ files w' = files w ∧ fetches w' = fetches w.
Proof.
  unfold NewClient, Cache_New, os_Stat, Cache_LoadFile, mbind, mret, M_bind, M_ret. cbn.
  destruct (files w !! cachefile) as [content|] eqn:Hf; cbn.
  - rewrite list_lookup_middle by done. rewrite Hf.
    destruct (gob_Decode content) as [snapshot|err]; cbn; [|done].
    intros [= <- <-]. cbn. repeat split; try done.
    eexists. split; [|].
    + rewrite insert_app_r_alt by done. rewrite Nat.sub_diag. reflexivity.
    + reflexivity.
  - intros [= <- <-]. cbn. repeat split; try done. by eexists.
Qed.

(** X17.  With a file at the cache-file path that decodes, [NewClient]
    returns a client whose cache holds exactly the decoded snapshot. *)
Theorem NewClient_loads_file cachefile w content snapshot :
  files w !! cachefile = Some content →
  gob_Decode content = inl snapshot →
  ∃ c w' s, NewClient cachefile w = (Done (Some c, None), w')
            ∧ caches w' !! Cache c = Some s ∧ entries s = snapshot.
Proof.
  intros Hf Hdec.
  unfold NewClient, Cache_New, os_Stat, Cache_LoadFile, mbind, mret, M_bind, M_ret. cbn.
  rewrite Hf. cbn. rewrite list_lookup_middle by done. rewrite Hf, Hdec. cbn.
  eexists _, _, _. split; [reflexivity|]. cbn. split.
  - apply list_lookup_insert_eq. rewrite length_app. cbn. lia.
  - reflexivity.
Qed.

(** X18.  A client as [NewClient] returns it does not use its cache: [Go]
    sends a request for every URI it can build a request for, also when the
    cache file brought a live entry for it. *)
Theorem NewClient_client_bypasses_cache cachefile w c w' uri request :
  NewClient cachefile w = (Done (Some c, None), w') →
  http_NewRequest "GET" (URL_String uri) = inl request →
  sent (Go c uri w').2 = sent w' ++ [request].
Proof.
  intros Hnew Hreq.
  assert (Hu : UseCache c = false ∧ ∃ s, caches w' !! Cache c = Some s).
  { revert Hnew.
    unfold NewClient, Cache_New, os_Stat, Cache_LoadFile, mbind, mret, M_bind, M_ret. cbn.
    destruct (files w !! cachefile) as [content|] eqn:Hf; cbn.
    - rewrite list_lookup_middle by done. rewrite Hf.
      destruct (gob_Decode content) as [snapshot|err]; cbn; [|done].
      intros [= <- <-]. cbn. split; [done|]. eexists.
      apply list_lookup_insert_eq. rewrite length_app. cbn. lia.
    - intros [= <- <-]. cbn. split; [done|]. eexists. by apply list_lookup_middle. }
  destruct Hu as [Hu [s Hs]].
  rewrite (Go_on_network c uri w' s Hs) by (rewrite Hu; apply orb_true_r).
  unfold Go_network. rewrite Hreq.
  destruct (Go_entered_fields c uri "cache miss: " w') as (_ & _ & _ & Hsn & _).
  destruct (reply_result (http_Do (sent w') request)) as [resp|err]; [|done].
  destruct (negb (StatusCode resp =? 200)); [done|].
  by destruct (Response_Body resp).
Qed.
End ClientMore.

Section PersistFacts.
Context `{Runtime} `{SavePkg}.
Implicit Types (c : Client) (w : World) (s : CacheStore).

(** X19.  The cache survives a restart.  When the cache file can be written
    and the decoder reads back what the encoder wrote, [WriteCache] succeeds
    without touching the cache, and a [NewClient] on the same path then
    returns a client whose cache has the same entries; once the caller sets
    the use-cache flag on it, [Go] answers a URI that was live before from
    that cache, without sending anything. *)
Theorem WriteCache_then_NewClient c w s :
  caches w !! Cache c = Some s →
  os_Create (CacheFile c) = None →
  gob_Decode (gob_Encode (entries s)) = inl (entries s) →
  ∃ w1 c' w2 s',
    WriteCache c w = (Done None, w1)
    ∧ caches w1 = caches w
    ∧ NewClient (CacheFile c) w1 = (Done (Some c', None), w2)
    ∧ caches w2 !! Cache c' = Some s'
    ∧ entries s' = entries s
    ∧ ∀ uri b, cache_get (clock w) (URL_String uri) s = (ObjBytes b, true) →
               ∃ w3, Go (with_UseCache true c') uri w2 = (Done (b, None), w3)
                     ∧ sent w3 = sent w.
Proof.
  intros Hs Hcreate Hcodec.
  unfold WriteCache, Cache_SaveFile, mbind, mret, M_bind, M_ret. rewrite Hs, Hcreate.
  exists (set_files (<[CacheFile c := gob_Encode (entries s)]> (files w)) w).
  unfold NewClient, Cache_New, os_Stat, Cache_LoadFile, mbind, mret, M_bind, M_ret.
  cbn. rewrite lookup_insert_eq. cbn. rewrite list_lookup_middle by done.
  rewrite lookup_insert_eq, Hcodec. cbn.
  eexists _, _, _. split; [reflexivity|]. split; [reflexivity|].
  split; [reflexivity|]. cbn.
  assert (Hnew : (<[length (caches w) :=
                      cache_load (entries s)
                        (cache_New (time_Minute * 60 * 24 * 7) (time_Minute * 60))]>
                    (caches w ++ [cache_New (time_Minute * 60 * 24 * 7) (time_Minute * 60)]))
                 !! length (caches w)
                 = Some (cache_load (entries s)
                           (cache_New (time_Minute * 60 * 24 * 7) (time_Minute * 60)))).
  { apply list_lookup_insert_eq. rewrite length_app. cbn. lia. }
  split; [exact Hnew|]. split; [reflexivity|].
  intros uri b Hg.
  erewrite Go_on_cache; [| exact Hnew | reflexivity | exact Hg].
  eexists. split; [reflexivity|].
  match goal with
  | |- sent (Go_entered ?c' uri ?l ?w2) = _ =>
      by destruct (Go_entered_fields c' uri l w2) as (_ & _ & _ & -> & _)
  end.
Qed.
End PersistFacts.

(** X20.  An empty show name is a prefix of every name, so with an empty
    query the loops find a show in every candidate list but the empty one,
    whatever the region. *)
Theorem FindShow_empty_query `{StringsPkg} region candidates :
  FindShow_loops region "" candidates = None ↔ candidates = [].
Proof.
  rewrite FindShow_loops_None. split.
  - destruct candidates as [|cand rest]; [done|]. intros Hall.
    specialize (Hall cand (list_elem_of_here _ _)). unfold accepted in Hall.
    assert (namePrefix "" cand = true) as Hp
      by (unfold namePrefix, strings_HasPrefix; by destruct (Show_Name _)).
    rewrite Hp, orb_true_r in Hall. done.
  - intros -> cand Hin. by apply not_elem_of_nil in Hin.
Qed.

(** ** The further theorems at work on the small runtime *)

(** An entry past its time does not count: the server is asked. *)
Lemma Go_miss_fetches_witness :
  ∃ w', @Go textUrl (testRT 200 "fresh" [] []) (testClient true "") (theURL "http://h/x")
            (staleWorld "http://h/x" "cached") = (Done (bytes "fresh", None), w')
        ∧ sent w' = [getRequest "http://h/x"].
Proof.
  destruct (@Go_miss_fetches textUrl (testRT 200 "fresh" [] []) (testClient true "")
              (theURL "http://h/x") (staleWorld "http://h/x" "cached")
              (cache_set 0 "http://h/x" (ObjBytes (bytes "cached")) 0 (cache_New week hour))
              (getRequest "http://h/x")
              {| StatusCode := 200; Response_Body := BodyOK (bytes "fresh") |}
              (bytes "fresh"))
    as (w' & Hgo & Hsent & _).
  - reflexivity.
  - vm_compute; reflexivity.
  - reflexivity.
  - reflexivity.
  - reflexivity.
  - reflexivity.
  - exists w'. split; [exact Hgo | exact Hsent].
Defined.

Lemma Go_request_error_witness :
  ∃ w', @Go textUrl (testRT 200 "fresh" [] []) (testClient true "") (theURL "http://h/a b")
            freshWorld
        = (Done ([], Some (LibError "url" "invalid character in URL")), w')
        ∧ sent w' = [].
Proof.
  destruct (@Go_request_error textUrl (testRT 200 "fresh" [] []) (testClient true "")
              (theURL "http://h/a b") freshWorld (cache_New week hour)
              (LibError "url" "invalid character in URL"))
    as (w' & Hgo & Hsent & _).
  - reflexivity.
  - left. vm_compute; reflexivity.
  - vm_compute; reflexivity.
  - exists w'. split; [exact Hgo | exact Hsent].
Defined.

Lemma Go_transport_error_witness :
  ∃ w', @Go textUrl (downRT (LibError "net" "connection refused")) (testClient true "")
            (theURL "http://h/x") freshWorld
        = (Done ([], Some (LibError "net" "connection refused")), w')
        ∧ sent w' = [getRequest "http://h/x"]
        ∧ caches w' = caches freshWorld.
Proof.
  apply (@Go_transport_error textUrl (downRT (LibError "net" "connection refused"))
           (testClient true "") (theURL "http://h/x") freshWorld (cache_New week hour)
           (getRequest "http://h/x") (LibError "net" "connection refused")).
  - reflexivity.
  - left. vm_compute; reflexivity.
  - reflexivity.
  - reflexivity.
Defined.

Lemma Go_body_error_witness :
  ∃ w', @Go textUrl (brokenRT "[{" (LibError "io" "unexpected EOF")) (testClient true "")
            (theURL "http://h/x") freshWorld
        = (Done ([], Some (LibError "io" "unexpected EOF")), w')
        ∧ sent w' = [getRequest "http://h/x"]
        ∧ caches w' = caches freshWorld.
Proof.
  apply (@Go_body_error textUrl (brokenRT "[{" (LibError "io" "unexpected EOF"))
           (testClient true "") (theURL "http://h/x") freshWorld (cache_New week hour)
           (getRequest "http://h/x")
           {| StatusCode := 200;
              Response_Body := BodyErr (bytes "[{") (LibError "io" "unexpected EOF") |}
           (bytes "[{") (LibError "io" "unexpected EOF")).
  - reflexivity.
  - left. vm_compute; reflexivity.
  - reflexivity.
  - reflexivity.
  - reflexivity.
  - reflexivity.
Defined.

Lemma Go_nil_cache_panics_witness :
  ∃ msg w', @Go textUrl (testRT 200 "fresh" [] []) (testClient true "")
                (theURL "http://h/x") (diskWorld "tvmaze.cache" "") = (Panic msg, w')
            ∧ sent w' = [] ∧ caches w' = [].
Proof.
  apply (@Go_nil_cache_panics textUrl (testRT 200 "fresh" [] []) (testClient true "")
           (theURL "http://h/x") (diskWorld "tvmaze.cache" "")).
  reflexivity.
Defined.

Lemma Go_foreign_entry_panics_witness :
  ∃ msg w', @Go textUrl (testRT 200 "fresh" [] []) (testClient true "")
                (theURL "http://h/x") (foreignWorld "http://h/x" "text") = (Panic msg, w')
            ∧ sent w' = []
            ∧ caches w' = caches (foreignWorld "http://h/x" "text").
Proof.
  apply (@Go_foreign_entry_panics textUrl (testRT 200 "fresh" [] []) (testClient true "")
           (theURL "http://h/x") (foreignWorld "http://h/x" "text")
           (cache_set 0 "http://h/x" (ObjString "text") 0 (cache_New week hour))
           (ObjString "text")).
  - reflexivity.
  - reflexivity.
  - vm_compute; reflexivity.
  - reflexivity.
Defined.

(** A refresh of one URI leaves the entry of another alone. *)
Lemma Go_frame_witness :
  ∃ s', caches (@Go textUrl (testRT 200 "fresh" [] []) (testClient false "")
                    (theURL "http://h/y") (warmWorld "http://h/x" "cached")).2 !! 0%nat
        = Some s'
        ∧ entries s' !! "http://h/x"
          = entries (cache_set 0 "http://h/x" (ObjBytes (bytes "cached")) 0
                               (cache_New week hour)) !! "http://h/x".
Proof.
  destruct (@Go_frame textUrl (testRT 200 "fresh" [] []) (testClient false "")
              (theURL "http://h/y") (warmWorld "http://h/x" "cached")
              (cache_set 0 "http://h/x" (ObjBytes (bytes "cached")) 0 (cache_New week hour))
              eq_refl) as (_ & _ & s' & Hs' & _ & Hkeys).
  exists s'. split; [exact Hs'|]. apply Hkeys. discriminate.
Defined.

Lemma Go_debug_output_witness :
  printed (@Go textUrl (testRT 200 "fresh" [] []) (debugClient true) (theURL "http://h/x")
               (warmWorld "http://h/x" "cached")).2
  = ["cache hit: http://h/x" +:+ newline].
Proof.
  apply (@Go_debug_output textUrl (testRT 200 "fresh" [] []) (debugClient true)
           (theURL "http://h/x") (warmWorld "http://h/x" "cached")
           (cache_set 0 "http://h/x" (ObjBytes (bytes "cached")) 0 (cache_New week hour))).
  reflexivity.
Defined.

(** Fetch with the flag clear, then again with the flag set. *)
Lemma Go_repeat_hits_cache_witness :
  ∃ w2, @Go textUrl (testRT 200 "fresh" [] []) (testClient true "") (theURL "http://h/x")
            (@Go textUrl (testRT 200 "fresh" [] []) (testClient false "")
                 (theURL "http://h/x") freshWorld).2
        = (Done (bytes "fresh", None), w2)
        ∧ sent w2 = [getRequest "http://h/x"].
Proof.
  destruct (@Go_repeat_hits_cache textUrl (testRT 200 "fresh" [] []) (testClient false "")
              (testClient true "") (theURL "http://h/x") freshWorld (cache_New week hour)
              (bytes "fresh")
              (@Go textUrl (testRT 200 "fresh" [] []) (testClient false "")
                   (theURL "http://h/x") freshWorld).2)
    as (w2 & Hgo & Hsent & _).
  - reflexivity.
  - vm_compute; discriminate.
  - vm_compute; reflexivity.
  - reflexivity.
  - reflexivity.
  - exists w2. split; [exact Hgo | exact Hsent].
Defined.

Lemma FindShow_repeat_hits_cache_witness :
  ∃ w2, @FindShow textUrl (testRT 200 "[]" [mkCand "Fringe" "US"] []) asciiStrings (testClient true "")
                  "fringe"
                  (@FindShow textUrl (testRT 200 "[]" [mkCand "Fringe" "US"] []) asciiStrings
                             (testClient true "") "fringe" freshWorld).2
        = (Done (mkShow "Fringe" "US", None), w2)
        ∧ sent w2 = [getRequest "http://api.tvmaze.com/search/shows?q=fringe"].
Proof.
  apply (@FindShow_repeat_hits_cache textUrl (testRT 200 "[]" [mkCand "Fringe" "US"] []) asciiStrings
           (testClient true "") "fringe" freshWorld (cache_New week hour)
           (mkShow "Fringe" "US")).
  - reflexivity.
  - vm_compute; discriminate.
  - reflexivity.
  - vm_compute; reflexivity.
Defined.

Lemma GetEpisodes_parse_error_witness :
  @GetEpisodes textUrl (testRT 200 "[]" [] []) badBaseClient 82 freshWorld
  = (Done ([], Some (LibError "url" "invalid character in URL")), freshWorld).
Proof.
  apply (proj1 (@GetEpisodes_parse_error textUrl (testRT 200 "[]" [] []) badBaseClient 82
                  freshWorld) (LibError "url" "invalid character in URL")).
  vm_compute; reflexivity.
Defined.

Lemma GetShow_parse_error_exits_witness :
  ∃ w', @GetShow textUrl (testRT 200 "[]" [] []) badBaseClient "Fringe" freshWorld
        = (Exit 1, w')
        ∧ @FindShow textUrl (testRT 200 "[]" [] []) asciiStrings badBaseClient "Fringe" freshWorld
          = (Exit 1, w')
        ∧ printed w' = ["url: invalid character in URL"]
        ∧ fetches w' = [] ∧ sent w' = [] ∧ caches w' = caches freshWorld.
Proof.
  apply (@GetShow_parse_error_exits textUrl (testRT 200 "[]" [] []) asciiStrings badBaseClient "Fringe"
           freshWorld (LibError "url" "invalid character in URL")).
  vm_compute; reflexivity.
Defined.

Lemma GetShow_one_fetch_witness :
  fetches (@GetShow textUrl (testRT 200 "[]" [mkCand "Fringe" "US"; mkCand "Fringe" "GB"] [])
             (testClient true "") "fringe" freshWorld).2
  = ["http://api.tvmaze.com/search/shows?q=fringe"]
  ∧ (@GetShow textUrl (testRT 200 "[]" [mkCand "Fringe" "US"; mkCand "Fringe" "GB"] [])
       (testClient true "") "fringe" freshWorld).1
    = Done ([mkCand "Fringe" "US"; mkCand "Fringe" "GB"], None).
Proof.
  destruct (@GetShow_one_fetch textUrl
              (testRT 200 "[]" [mkCand "Fringe" "US"; mkCand "Fringe" "GB"] [])
              (testClient true "") "fringe" freshWorld
              (theURL "http://api.tvmaze.com/search/shows") eq_refl)
    as (Hfetch & _ & _ & Hok & _).
  split; [exact Hfetch|].
  apply (Hok (bytes "[]")); [vm_compute; reflexivity | reflexivity].
Defined.

(** The server is down: the transport's error comes out of [FindShow]. *)
Lemma FindShow_hands_on_failure_witness :
  (@FindShow textUrl (downRT (LibError "net" "connection refused")) asciiStrings (testClient true "")
             "Fringe" freshWorld).1
  = Done (zeroShow, Some (LibError "net" "connection refused")).
Proof.
  destruct (@FindShow_hands_on_failure textUrl (downRT (LibError "net" "connection refused")) asciiStrings
              (testClient true "") "Fringe" freshWorld) as (_ & Herr & _).
  apply (Herr []). vm_compute; reflexivity.
Defined.

Lemma GetEpisodes_fetch_error_witness :
  (@GetEpisodes textUrl (downRT (LibError "net" "connection refused")) (testClient true "")
                82 freshWorld).1
  = Done ([], Some (LibError "net" "connection refused")).
Proof.
  destruct (@GetEpisodes_fetch_error textUrl (downRT (LibError "net" "connection refused"))
              (testClient true "") 82 freshWorld
              (theURL "http://api.tvmaze.com/shows/82/episodes") eq_refl) as (Herr & _).
  apply (Herr []). vm_compute; reflexivity.
Defined.

Lemma NewClient_defaults_witness :
  UseCache {| Debug := false; BaseURI := "http://api.tvmaze.com"; Region := "";
              Cache := 1; CacheFile := "tvmaze.cache"; UseCache := false;
              Timeout := 180 * time_Second |} = false
  ∧ sent (@NewClient textUrl (testRT 200 "" [] []) "tvmaze.cache" freshWorld).2 = [].
Proof.
  destruct (@NewClient_defaults textUrl (testRT 200 "" [] []) "tvmaze.cache" freshWorld
              {| Debug := false; BaseURI := "http://api.tvmaze.com"; Region := "";
                 Cache := 1; CacheFile := "tvmaze.cache"; UseCache := false;
                 Timeout := 180 * time_Second |}
              (@NewClient textUrl (testRT 200 "" [] []) "tvmaze.cache" freshWorld).2)
    as (_ & _ & _ & Hu & _ & _ & _ & _ & Hsent & _).
  - vm_compute; reflexivity.
  - split; [exact Hu | exact Hsent].
Defined.

Lemma NewClient_loads_file_witness :
  ∃ c w' s, @NewClient textUrl (codecRT (oneSnapshot "http://h/x" "cached")) "tvmaze.cache"
                       (diskWorld "tvmaze.cache" "gob") = (Done (Some c, None), w')
            ∧ caches w' !! Cache c = Some s
            ∧ entries s = oneSnapshot "http://h/x" "cached".
Proof.
  apply (@NewClient_loads_file textUrl (codecRT (oneSnapshot "http://h/x" "cached"))
           "tvmaze.cache" (diskWorld "tvmaze.cache" "gob") (bytes "gob")).
  - vm_compute; reflexivity.
  - reflexivity.
Defined.

(** The file brought a live entry for the URI; the request goes out all the
    same. *)
Lemma NewClient_client_bypasses_cache_witness :
  sent (@Go textUrl (codecRT (oneSnapshot "http://h/x" "cached"))
            {| Debug := false; BaseURI := "http://api.tvmaze.com"; Region := "";
               Cache := 0; CacheFile := "tvmaze.cache"; UseCache := false;
               Timeout := 180 * time_Second |}
            (theURL "http://h/x")
            (@NewClient textUrl (codecRT (oneSnapshot "http://h/x" "cached")) "tvmaze.cache"
                        (diskWorld "tvmaze.cache" "gob")).2).2
  = [getRequest "http://h/x"].
Proof.
  apply (@NewClient_client_bypasses_cache textUrl
           (codecRT (oneSnapshot "http://h/x" "cached")) "tvmaze.cache"
           (diskWorld "tvmaze.cache" "gob")
           {| Debug := false; BaseURI := "http://api.tvmaze.com"; Region := "";
              Cache := 0; CacheFile := "tvmaze.cache"; UseCache := false;
              Timeout := 180 * time_Second |}
           (@NewClient textUrl (codecRT (oneSnapshot "http://h/x" "cached")) "tvmaze.cache"
                       (diskWorld "tvmaze.cache" "gob")).2
           (theURL "http://h/x") (getRequest "http://h/x")).
  - vm_compute; reflexivity.
  - reflexivity.
Defined.

Lemma WriteCache_then_NewClient_witness :
  ∃ w1 c' w2 s',
    @WriteCache textUrl (codecSave "gob" None) (testClient true "")
                (warmWorld "http://h/x" "cached") = (Done None, w1)
    ∧ @NewClient textUrl (codecRT (oneSnapshot "http://h/x" "cached")) "tvmaze.cache" w1
      = (Done (Some c', None), w2)
    ∧ caches w2 !! Cache c' = Some s'
    ∧ entries s' = oneSnapshot "http://h/x" "cached"
    ∧ ∃ w3, @Go textUrl (codecRT (oneSnapshot "http://h/x" "cached"))
                (with_UseCache true c') (theURL "http://h/x") w2
            = (Done (bytes "cached", None), w3)
            ∧ sent w3 = [].
Proof.
  destruct (@WriteCache_then_NewClient textUrl (codecRT (oneSnapshot "http://h/x" "cached"))
              (codecSave "gob" None) (testClient true "")
              (warmWorld "http://h/x" "cached")
              (cache_set 0 "http://h/x" (ObjBytes (bytes "cached")) 0 (cache_New week hour))
              eq_refl eq_refl eq_refl)
    as (w1 & c' & w2 & s' & Hwrite & _ & Hnew & Hs' & Hentries & Hgo).
  exists w1, c', w2, s'. split; [exact Hwrite|]. split; [exact Hnew|].
  split; [exact Hs'|]. split; [exact Hentries|].
  apply (Hgo (theURL "http://h/x") (bytes "cached")). vm_compute; reflexivity.
Defined.

Lemma FindShow_empty_query_witness :
  @FindShow_loops asciiStrings "US" "" [mkCand "Fringe" "CA"] ≠ None.
Proof.
  intros Hnone. apply (proj1 (@FindShow_empty_query asciiStrings "US" [mkCand "Fringe" "CA"])) in Hnone.
  discriminate Hnone.
Defined.
